(** * ton-wallet-switcher: the wallet manager, embedded and verified

    The program keeps several wallet directories inside one directory
    (the wallets root, which is the working directory of every operation)
    and moves one of them at a time to the reserved name [data].  Its
    configuration holds the name of the current wallet and a map from wallet
    names to descriptions.

    The repository holds two revisions of the wallet manager:
    - [src/main.go], embedded in module [MainGo];
    - [src/unnamed/part_001], embedded in module [Part001]: it adds
      [Remove], tests map membership with the comma-ok form and guards
      [Switch] with a membership test.

    Every Go function that takes [config *Config] and returns [error] is a
    computation in the monad [M] below: it threads the configuration, the
    directory and the lines still to be read from standard input, and ends by
    returning ([Ok]), by returning an error ([Err]) or by leaving the process
    through [logFatal] ([Exit]).  What the program prints (prompts, log
    lines) is left out; [config.Wallets] is a map, never nil, as [Init] makes
    it and [writeConfig] saves it. *)

From stdpp Require Import base strings gmap list sorting.

Open Scope string_scope.

(** ** Constants *)

Definition currentWalletDirName : string := "data".

(** ** The configuration ([type Config struct]) *)

Record Config := mkConfig {
  configFilePath : string;
  WalletsDir : string;
  CurrentWallet : string;
  Wallets : gmap string string
}.

(** ** The wallets root on disk

    Only the entries of the wallets root matter: each is a regular file or a
    directory, and of a directory only its own entries and their kinds are
    observed (the marker file [salt]).  Names are single path components. *)

Inductive kind := RegularFile | Directory.

Inductive node := File | Dir (children : gmap string kind).

Abbreviation Disk := (gmap string node).

#[global] Instance kind_eq_dec : EqDecision kind.
Proof. solve_decision. Defined.

#[global] Instance node_eq_dec : EqDecision node.
Proof. solve_decision. Defined.

(** Error numbers of the file-system calls; [errors.Is(err, os.ErrNotExist)]
    is [e = ENOENT]. *)
Inductive errno := ENOENT | EEXIST | ENOTDIR.

#[global] Instance errno_eq_dec : EqDecision errno.
Proof. solve_decision. Defined.

(** [os.Stat name]: the empty path names nothing. *)
Definition Stat (d : Disk) (name : string) : option node :=
  if decide (name = "") then None else d !! name.

(** [os.Rename oldname newname] on Unix.  A missing source is [ENOENT]; an
    existing directory at the destination is refused with [EEXIST] (Go checks
    this itself before the system call); a regular file at the destination is
    replaced by a regular file and refuses a directory. *)
Definition Rename (oldname newname : string) (d : Disk) : errno + Disk :=
  match Stat d oldname with
  | None => inl ENOENT
  | Some n =>
      if decide (newname = "") then inl ENOENT else
      match d !! newname with
      | None => inr (<[newname := n]> (delete oldname d))
      | Some (Dir _) => inl EEXIST
      | Some File =>
          match n with
          | File => inr (<[newname := n]> (delete oldname d))
          | Dir _ => inl ENOTDIR
          end
      end
  end.

(** [os.RemoveAll path]: removes the entry with everything below it; a
    missing path is not an error. *)
Definition RemoveAll (path : string) (d : Disk) : errno + Disk :=
  inr (delete path d).

(** [os.ReadDir] of the wallets root: the entry names sorted by file name. *)
Definition string_le (a b : string) : Prop := String.leb a b = true.

#[global] Instance string_le_dec a b : Decision (string_le a b).
Proof. unfold string_le. apply _. Defined.

Definition ReadDir (d : Disk) : errno + list string :=
  inr (merge_sort string_le
         (filter (λ name, name ≠ "") (map fst (map_to_list d)))).

(** ** Errors and results *)

Inductive error :=
| AlreadyActive (walletName : string)      (* already switched to wallet %q *)
| NotFound (walletName : string)           (* no wallet %q present *)
| NotADirectory (walletDirName : string)   (* %q is not a directory *)
| NotAWalletDirectory (walletDirName : string) (* %q is not a wallet directory *)
| Aborted                                  (* operation aborted *)
| IOError (e : errno).                     (* an error of the os package *)

Inductive result (A : Type) :=
| Ok (a : A)       (* the function returned, with a nil error *)
| Err (e : error)  (* the function returned the error e *)
| Exit.            (* logFatal: os.Exit(1) *)

Arguments Ok {A} a.
Arguments Err {A} e.
Arguments Exit {A}.

Record World := mkWorld {
  config : Config;
  disk : Disk;
  stdin : list string
}.

Definition M (A : Type) : Type := World → result A * World.

Definition ret {A} (a : A) : M A := λ w, (Ok a, w).

Definition bind {A B} (m : M A) (k : A → M B) : M B := λ w,
  match m w with
  | (Ok a, w') => k a w'
  | (Err e, w') => (Err e, w')
  | (Exit, w') => (Exit, w')
  end.

Definition fail {A} (e : error) : M A := λ w, (Err e, w).

Definition logFatal {A} : M A := λ w, (Exit, w).

#[global] Instance M_ret : MRet M := @ret.
#[global] Instance M_bind : MBind M := λ A B k m, bind m k.

Definition gets {A} (f : Config → A) : M A := λ w, (Ok (f (config w)), w).

Definition setCurrentWallet (walletName : string) : M unit := λ w,
  let c := config w in
  (Ok (), mkWorld (mkConfig (configFilePath c) (WalletsDir c) walletName (Wallets c))
                  (disk w) (stdin w)).

Definition setWallets (wallets : gmap string string) : M unit := λ w,
  let c := config w in
  (Ok (), mkWorld (mkConfig (configFilePath c) (WalletsDir c) (CurrentWallet c) wallets)
                  (disk w) (stdin w)).

(** [config.Wallets[name] = description] *)
Definition putWallet (name description : string) : M unit :=
  wallets ← gets Wallets; setWallets (<[name := description]> wallets).

(** [delete(config.Wallets, name)] *)
Definition deleteWallet (name : string) : M unit :=
  wallets ← gets Wallets; setWallets (delete name wallets).

Definition os_Stat (name : string) : M (option node) := λ w,
  (Ok (Stat (disk w) name), w).

Definition os_Rename (oldname newname : string) : M (option errno) := λ w,
  match Rename oldname newname (disk w) with
  | inl e => (Ok (Some e), w)
  | inr d => (Ok None, mkWorld (config w) d (stdin w))
  end.

Definition os_RemoveAll (path : string) : M (option errno) := λ w,
  match RemoveAll path (disk w) with
  | inl e => (Ok (Some e), w)
  | inr d => (Ok None, mkWorld (config w) d (stdin w))
  end.

Definition os_ReadDir : M (errno + list string) := λ w, (Ok (ReadDir (disk w)), w).

(** [scanLine] (input.go): the next line of standard input; at the end of
    the input [logFatal] leaves the process. *)
Definition scanLine : M string := λ w,
  match stdin w with
  | [] => logFatal w
  | line :: rest => (Ok line, mkWorld (config w) (disk w) rest)
  end.

(** [isWalletDir]: the directory holds a regular file named [salt]. *)
Definition isWalletDir (walletsDir walletDir : string) : M bool := λ w,
  (Ok match Stat (disk w) walletDir with
      | Some (Dir children) => bool_decide (children !! "salt" = Some RegularFile)
      | _ => false
      end, w).

(** [isWalletDir] over the entries of the root, as the loop of [getWallets]. *)
Fixpoint getWallets_for (walletsDir : string) (walletEntries : list string)
  : M (list string) :=
  match walletEntries with
  | [] => mret []
  | name :: rest =>
      b ← isWalletDir walletsDir name;
      wallets ← getWallets_for walletsDir rest;
      mret (if b : bool then name :: wallets else wallets)
  end.

Definition getWallets (walletsDir : string) : M (list string) :=
  r ← os_ReadDir;
  match r with
  | inl e => fail (IOError e)
  | inr walletEntries => getWallets_for walletsDir walletEntries
  end.

(** The loop that reads a wallet name (in [addWallet] and in [Edit]): an
    empty line stands for [default], and the name [data] is refused and asked
    again.  Every turn takes one line, and [scanLine] leaves the process when
    none is left, so the loop is a recursion on the lines of the input. *)
Fixpoint scanWalletName (default : string) (lines : list string)
  : option (string * list string) :=
  match lines with
  | [] => None
  | line :: rest =>
      let walletName := if decide (line = "") then default else line in
      if decide (walletName ≠ currentWalletDirName) then Some (walletName, rest)
      else scanWalletName default rest
  end.

Definition scanWalletName_for (default : string) : M string := λ w,
  match scanWalletName default (stdin w) with
  | None => (Exit, mkWorld (config w) (disk w) [])
  | Some (walletName, rest) => (Ok walletName, mkWorld (config w) (disk w) rest)
  end.

(** [config.Wallets[name]] read as a value: the empty string for a missing
    key. *)
Definition index (wallets : gmap string string) (name : string) : string :=
  default "" (wallets !! name).

(** Go leaves the order of [for name := range config.Wallets] open.  The
    first key it yields is taken from an order given by the caller: it is a
    key of the map, and there is one unless the map is empty. *)
Record MapOrder := mkMapOrder {
  first_key : gmap string string → option string;
  first_key_Some : ∀ m k, first_key m = Some k → is_Some (m !! k);
  first_key_None : ∀ m, first_key m = None → m = ∅
}.

(** ** The wallet manager of [src/unnamed/part_001] *)

Module Part001.
Section Manager.
Context (order : MapOrder).

Definition addWallet (walletDirName : string) (changeCurrentWallet : bool) : M unit :=
  walletName ←
    (if decide (walletDirName = currentWalletDirName)
     then scanWalletName_for walletDirName
     else mret walletDirName);
  (if changeCurrentWallet && bool_decide (walletDirName = currentWalletDirName)
   then setCurrentWallet walletName
   else mret ());;
  description ← scanLine;
  putWallet walletName description.

Definition Switch (walletName : string) : M unit :=
  current ← gets CurrentWallet;
  if decide (current = walletName) then fail (AlreadyActive walletName) else
  wallets ← gets Wallets;
  if decide (wallets !! walletName = None) then fail (NotFound walletName) else
  (if decide (current ≠ "")
   then err ← os_Rename currentWalletDirName current;
        match err with Some e => fail (IOError e) | None => mret () end
   else mret ());;
  err ← os_Rename walletName currentWalletDirName;
  match err with
  | Some e => if decide (e ≠ ENOENT) then fail (IOError e)
              else setCurrentWallet walletName
  | None => setCurrentWallet walletName
  end.

Definition switchToFirstWallet : M unit :=
  wallets ← gets Wallets;
  match first_key order wallets with
  | Some name => Switch name
  | None => mret ()
  end.

Fixpoint Init_for (wallets : list string) : M unit :=
  match wallets with
  | [] => mret ()
  | walletDirName :: rest => addWallet walletDirName true;; Init_for rest
  end.

Definition Init : M unit :=
  walletsDir ← gets WalletsDir;
  wallets ← getWallets walletsDir;
  setWallets ∅;;
  setCurrentWallet "";;
  Init_for wallets;;
  current ← gets CurrentWallet;
  if decide (current = "") then switchToFirstWallet else mret ().

Definition Edit (walletName : string) : M unit :=
  wallets ← gets Wallets;
  if decide (wallets !! walletName = None) then fail (NotFound walletName) else
  newWalletName ← scanWalletName_for walletName;
  line ← scanLine;
  let newWalletDescription :=
    if decide (line = "") then index wallets walletName else line in
  current ← gets CurrentWallet;
  (if decide (current = walletName) then setCurrentWallet newWalletName
   else if decide (newWalletName ≠ walletName)
   then err ← os_Rename walletName newWalletName;
        match err with Some e => fail (IOError e) | None => mret () end
   else mret ());;
  putWallet newWalletName newWalletDescription;;
  if decide (walletName ≠ newWalletName) then deleteWallet walletName else mret ().

Definition Add (walletDirName : string) : M unit :=
  walletDirInfo ← os_Stat walletDirName;
  match walletDirInfo with
  | Some File => fail (NotADirectory walletDirName)
  | Some (Dir _) =>
      walletsDir ← gets WalletsDir;
      isWallet ← isWalletDir walletsDir walletDirName;
      if isWallet : bool then mret ()
      else fail (NotAWalletDirectory walletDirName)
  | None => mret ()
  end;;
  addWallet walletDirName false;;
  (* If user creates a wallet, he probably wants to use it right away *)
  Switch walletDirName.

Definition Forget (walletName : string) : M unit :=
  wallets ← gets Wallets;
  if decide (wallets !! walletName = None) then fail (NotFound walletName) else
  current ← gets CurrentWallet;
  if decide (current = walletName) then
    err ← os_Rename currentWalletDirName walletName;
    match err with
    | Some e =>
        if decide (e ≠ ENOENT) then fail (IOError e)
        else deleteWallet walletName;; setCurrentWallet "";; switchToFirstWallet
    | None => deleteWallet walletName;; setCurrentWallet "";; switchToFirstWallet
    end
  else deleteWallet walletName.

Definition Remove (walletName : string) : M unit :=
  wallets ← gets Wallets;
  if decide (wallets !! walletName = None) then fail (NotFound walletName) else
  confirmation ← scanLine;
  if decide (confirmation = "yes") then
    Forget walletName;;
    err ← os_RemoveAll walletName;
    match err with
    | Some e => if decide (e ≠ ENOENT) then fail (IOError e) else mret ()
    | None => mret ()
    end
  else fail Aborted.

End Manager.

(** The subcommands of [main] that take the configuration through the
    manager. *)
Inductive operation :=
| DoInit
| DoSwitch (walletName : string)
| DoEdit (walletName : string)
| DoAdd (walletDirName : string)
| DoForget (walletName : string)
| DoRemove (walletName : string).

Definition run (order : MapOrder) (op : operation) : M unit :=
  match op with
  | DoInit => Init order
  | DoSwitch walletName => Switch walletName
  | DoEdit walletName => Edit walletName
  | DoAdd walletDirName => Add walletDirName
  | DoForget walletName => Forget order walletName
  | DoRemove walletName => Remove order walletName
  end.

(** The configurations that [main] writes back ([wrapSubcommand] saves the
    configuration only when the operation returned nil): the first one
    comes from [Init]; between two runs the directory, the input and the
    order of the map are arbitrary. *)
Inductive reachable : Config → Prop :=
| reachable_Init order c d input w' :
    Init order (mkWorld c d input) = (Ok (), w') → reachable (config w')
| reachable_run order op c d input w' :
    reachable c →
    run order op (mkWorld c d input) = (Ok (), w') → reachable (config w').

End Part001.

(** ** The wallet manager of [src/main.go] *)

Module MainGo.
Section Manager.
Context (order : MapOrder).

Definition addWallet (walletDirName : string) (walletExists : bool)
    (changeCurrentWallet : bool) : M unit :=
  walletName ←
    (if decide (walletDirName = currentWalletDirName)
     then scanWalletName_for walletDirName
     else mret walletDirName);
  (if changeCurrentWallet && bool_decide (walletDirName = currentWalletDirName)
   then setCurrentWallet walletName
   else mret ());;
  description ← scanLine;
  putWallet walletName description.

Definition Switch (walletName : string) : M unit :=
  current ← gets CurrentWallet;
  if decide (current = walletName) then fail (AlreadyActive walletName) else
  (if decide (current ≠ "")
   then err ← os_Rename currentWalletDirName current;
        match err with Some e => fail (IOError e) | None => mret () end
   else mret ());;
  err ← os_Rename walletName currentWalletDirName;
  match err with
  | Some e => if decide (e ≠ ENOENT) then fail (IOError e)
              else setCurrentWallet walletName
  | None => setCurrentWallet walletName
  end.

Definition switchToFirstWallet : M unit :=
  wallets ← gets Wallets;
  match first_key order wallets with
  | Some name => Switch name
  | None => mret ()
  end.

Fixpoint Init_for (wallets : list string) : M unit :=
  match wallets with
  | [] => mret ()
  | walletDirName :: rest => addWallet walletDirName true true;; Init_for rest
  end.

Definition Init : M unit :=
  walletsDir ← gets WalletsDir;
  wallets ← getWallets walletsDir;
  setWallets ∅;;
  setCurrentWallet "";;
  Init_for wallets;;
  current ← gets CurrentWallet;
  if decide (current = "") then switchToFirstWallet else mret ().

Definition Edit (walletName : string) : M unit :=
  wallets ← gets Wallets;
  if decide (index wallets walletName = "") then fail (NotFound walletName) else
  newWalletName ← scanWalletName_for walletName;
  line ← scanLine;
  let newWalletDescription :=
    if decide (line = "") then index wallets walletName else line in
  current ← gets CurrentWallet;
  (if decide (current = walletName) then setCurrentWallet newWalletName
   else if decide (newWalletName ≠ walletName)
   then err ← os_Rename walletName newWalletName;
        match err with Some e => fail (IOError e) | None => mret () end
   else mret ());;
  putWallet newWalletName newWalletDescription;;
  if decide (walletName ≠ newWalletName) then deleteWallet walletName else mret ().

Definition Add (walletDirName : string) : M unit :=
  walletDirInfo ← os_Stat walletDirName;
  match walletDirInfo with
  | Some File => fail (NotADirectory walletDirName)
  | Some (Dir _) =>
      walletsDir ← gets WalletsDir;
      isWallet ← isWalletDir walletsDir walletDirName;
      if isWallet : bool then mret ()
      else fail (NotAWalletDirectory walletDirName)
  | None => mret ()
  end;;
  addWallet walletDirName (bool_decide (is_Some walletDirInfo)) false;;
  (* If user creates a wallet, he probably wants to use it right away *)
  Switch walletDirName.

Definition Forget (walletName : string) : M unit :=
  wallets ← gets Wallets;
  if decide (index wallets walletName = "") then fail (NotFound walletName) else
  current ← gets CurrentWallet;
  if decide (current = walletName) then
    err ← os_Rename currentWalletDirName walletName;
    match err with
    | Some e =>
        if decide (e ≠ ENOENT) then fail (IOError e)
        else deleteWallet walletName;; setCurrentWallet "";; switchToFirstWallet
    | None => deleteWallet walletName;; setCurrentWallet "";; switchToFirstWallet
    end
  else deleteWallet walletName.

End Manager.

(** The subcommands of [main] that take the configuration through the
    manager. *)
Inductive operation :=
| DoInit
| DoSwitch (walletName : string)
| DoEdit (walletName : string)
| DoAdd (walletDirName : string)
| DoForget (walletName : string).

Definition run (order : MapOrder) (op : operation) : M unit :=
  match op with
  | DoInit => Init order
  | DoSwitch walletName => Switch walletName
  | DoEdit walletName => Edit walletName
  | DoAdd walletDirName => Add walletDirName
  | DoForget walletName => Forget order walletName
  end.

(** The configurations that [main] writes back, as in [Part001]. *)
Inductive reachable : Config → Prop :=
| reachable_Init order c d input w' :
    Init order (mkWorld c d input) = (Ok (), w') → reachable (config w')
| reachable_run order op c d input w' :
    reachable c →
    run order op (mkWorld c d input) = (Ok (), w') → reachable (config w').

End MainGo.

(** ** The invariant of the data model *)

(** The current wallet is none or a key of
    the map, it is not the reserved name, and the reserved name is not a
    key. *)
Definition invariant (c : Config) : Prop :=
  (CurrentWallet c = "" ∨ is_Some (Wallets c !! CurrentWallet c)) ∧
  CurrentWallet c ≠ currentWalletDirName ∧
  Wallets c !! currentWalletDirName = None.

Definition withCurrentWallet (c : Config) (walletName : string) : Config :=
  mkConfig (configFilePath c) (WalletsDir c) walletName (Wallets c).

Definition withWallets (c : Config) (wallets : gmap string string) : Config :=
  mkConfig (configFilePath c) (WalletsDir c) (CurrentWallet c) wallets.

(** ** Concrete orders and worlds used by the examples *)

(** The first key of the map as [map_to_list] lists it. *)
Definition listFirst (m : gmap string string) : option string :=
  head (map fst (map_to_list m)).

Definition listOrder : MapOrder.
Proof.
  refine (mkMapOrder listFirst _ _); unfold listFirst.
  - intros m k. destruct (map_to_list m) as [|[k' v] l] eqn:E; simpl; [done|].
    intros [= <-]. exists v. apply elem_of_map_to_list. rewrite E. left.
  - intros m H. apply map_to_list_empty_iff.
    destruct (map_to_list m) as [|[k' v] l]; [done|discriminate].
Defined.

Definition walletDir : node := Dir {[ "salt" := RegularFile ]}.

(** A world with the wallets [a] (current, at [data]) and [b]. *)
Definition twoWallets (input : list string) : World :=
  mkWorld (mkConfig "cfg" "/w" "a" {[ "a" := "first"; "b" := "second" ]})
          {[ "data" := walletDir; "b" := walletDir ]} input.

(** A world with the wallets [a] and [b], neither of them current, where
    only [a] has its directory. *)
Definition strayWallets (input : list string) : World :=
  mkWorld (mkConfig "cfg" "/w" "" {[ "a" := "first"; "b" := "second" ]})
          {[ "a" := walletDir ]} input.

(** The world with the wallet [main] current, its directory at [data]. *)
Definition oneWallet (input : list string) : World :=
  mkWorld (mkConfig "cfg" "/w" "main" {[ "main" := "first" ]})
          {[ "data" := walletDir ]} input.

(** ** The directory as the manager expects it *)

(** What [isWalletDir] answers on a directory. *)
Definition holdsWallet (d : Disk) (walletDir : string) : bool :=
  match Stat d walletDir with
  | Some (Dir children) => bool_decide (children !! "salt" = Some RegularFile)
  | _ => false
  end.

(** Configuration and directory fit together: the invariant holds and the
    empty string is no key; every wallet but the current one has its wallet
    directory under its name; the directory of the current wallet is at
    [data] and nothing is at its own name; with no current wallet nothing is
    at [data]. *)
Definition layout (c : Config) (d : Disk) : Prop :=
  invariant c ∧
  Wallets c !! "" = None ∧
  (∀ name, is_Some (Wallets c !! name) → name ≠ CurrentWallet c →
           holdsWallet d name = true) ∧
  (CurrentWallet c ≠ "" →
     holdsWallet d currentWalletDirName = true ∧ d !! CurrentWallet c = None) ∧
  (CurrentWallet c = "" → d !! currentWalletDirName = None).

(** ** The command line ([main])

    [main] looks at [os.Args] and calls the manager.  An [action] says which
    call it makes: the operations with an argument run after [loadConfig]
    and inside [wrapSubcommand]; [logHelp] prints the message and the help
    text and leaves with status 1. *)

Inductive action :=
| CallSwitch (argument : string)
| CallEdit (argument : string)
| CallAdd (argument : string)
| CallForget (argument : string)
| CallRemove (argument : string)
| CallInit
| CallStatus
| PrintConfigPath
| PrintWalletsDir
| CallHelp
| LogHelp (message : string).

(** [main] of [src/unnamed/part_001]; [args] is [os.Args], the name of the
    program first. *)
Module Part001Cli.

Definition main (args : list string) : action :=
  match args with
  | _ :: subcommand :: rest =>
      match rest with
      | _ :: _ =>
          let argument := String.concat " " rest in
          if decide (subcommand = "switch") then CallSwitch argument
          else if decide (subcommand = "edit") then CallEdit argument
          else if decide (subcommand = "add") then CallAdd argument
          else if decide (subcommand = "forget") then CallForget argument
          else if decide (subcommand = "remove") then CallRemove argument
          else LogHelp "unknown subcommand"
      | [] =>
          if decide (subcommand = "init") then CallInit
          else if decide (subcommand = "status") then CallStatus
          else if decide (subcommand = "config") then PrintConfigPath
          else if decide (subcommand = "directory") then PrintWalletsDir
          else if decide (subcommand = "help") then CallHelp
          else if decide (subcommand ∈ ["switch"; "edit"; "add"; "forget"; "remove"])
          then LogHelp "no argument"
          else LogHelp "unknown subcommand"
      end
  | _ => LogHelp "no subcommand specified"
  end.

End Part001Cli.

(** [main] of [src/main.go], which has no [remove]. *)
Module MainGoCli.

Definition main (args : list string) : action :=
  match args with
  | _ :: subcommand :: rest =>
      match rest with
      | _ :: _ =>
          let argument := String.concat " " rest in
          if decide (subcommand = "switch") then CallSwitch argument
          else if decide (subcommand = "edit") then CallEdit argument
          else if decide (subcommand = "add") then CallAdd argument
          else if decide (subcommand = "forget") then CallForget argument
          else LogHelp "unknown subcommand"
      | [] =>
          if decide (subcommand = "init") then CallInit
          else if decide (subcommand = "status") then CallStatus
          else if decide (subcommand = "config") then PrintConfigPath
          else if decide (subcommand = "directory") then PrintWalletsDir
          else if decide (subcommand = "help") then CallHelp
          else if decide (subcommand ∈ ["switch"; "edit"; "add"; "forget"])
          then LogHelp "no argument"
          else LogHelp "unknown subcommand"
      end
  | _ => LogHelp "no subcommand specified"
  end.

End MainGoCli.

(** * Verification *)

(** ** Shared facts *)

Lemma scanWalletName_valid default lines walletName rest :
  scanWalletName default lines = Some (walletName, rest) →
  walletName ≠ currentWalletDirName.
Proof.
  induction lines as [|line lines IH]; simpl; [done|].
  case_decide; [|done]. by intros [= <- _].
Qed.

(** A name other than [data] is accepted at once: an empty line keeps the
    default. *)
Lemma scanWalletName_default default rest :
  default ≠ currentWalletDirName →
  scanWalletName default ("" :: rest) = Some (default, rest).
Proof. intros H. simpl. by rewrite decide_True. Qed.

Lemma scanWalletName_line default line rest :
  line ≠ "" → line ≠ currentWalletDirName →
  scanWalletName default (line :: rest) = Some (line, rest).
Proof. intros H1 H2. simpl. rewrite (decide_False (P := line = "")); [|done]. by rewrite decide_True. Qed.

Lemma first_key_empty (order : MapOrder) : first_key order ∅ = None.
Proof.
  destruct (first_key order ∅) as [k|] eqn:E; [|done].
  apply first_key_Some in E. rewrite lookup_empty in E. by destruct E.
Qed.

Ltac unfold_M :=
  unfold putWallet, deleteWallet in *;
  unfold mbind, mret, M_bind, M_ret, bind, ret, fail, gets, setWallets,
    setCurrentWallet, os_Rename, os_Stat, os_RemoveAll, scanLine, logFatal,
    scanWalletName_for, isWalletDir in *.

(** Running the monad step by step. *)
Lemma run_bind {A B} (m : M A) (k : A → M B) (w : World) :
  (m ≫= k) w = match m w with
               | (Ok a, w') => k a w'
               | (Err e, w') => (Err e, w')
               | (Exit, w') => (Exit, w')
               end.
Proof. done. Qed.

Lemma run_ret {A} (a : A) (w : World) : (mret a : M A) w = (Ok a, w).
Proof. done. Qed.

Lemma run_gets {A} (f : Config → A) (w : World) : gets f w = (Ok (f (config w)), w).
Proof. done. Qed.

Lemma run_os_Stat (name : string) (w : World) :
  os_Stat name w = (Ok (Stat (disk w) name), w).
Proof. done. Qed.

Lemma run_putWallet (name description : string) (w : World) :
  putWallet name description w
  = (Ok (), mkWorld (withWallets (config w) (<[name := description]> (Wallets (config w))))
              (disk w) (stdin w)).
Proof. done. Qed.

Lemma run_deleteWallet (name : string) (w : World) :
  deleteWallet name w
  = (Ok (), mkWorld (withWallets (config w) (delete name (Wallets (config w))))
              (disk w) (stdin w)).
Proof. done. Qed.

Lemma run_setCurrentWallet (name : string) (w : World) :
  setCurrentWallet name w
  = (Ok (), mkWorld (withCurrentWallet (config w) name) (disk w) (stdin w)).
Proof. done. Qed.

(** An [Ok] result of a sequence comes from [Ok] results of its parts. *)
Lemma bind_Ok {A B} (m : M A) (k : A → M B) (w w2 : World) (b : B) :
  (m ≫= k) w = (Ok b, w2) →
  ∃ a w1, m w = (Ok a, w1) ∧ k a w1 = (Ok b, w2).
Proof.
  rewrite run_bind. destruct (m w) as [[a|e|] w1]; [eauto|done|done].
Qed.

(** ** [Switch] *)

(** Both guards of [Switch] in [Part001] return before anything is touched. *)
Lemma part001_Switch_AlreadyActive (w : World) :
  Part001.Switch (CurrentWallet (config w)) w
  = (Err (AlreadyActive (CurrentWallet (config w))), w).
Proof. unfold Part001.Switch. unfold_M. simpl. by rewrite decide_True. Qed.

Lemma part001_Switch_NotFound (walletName : string) (w : World) :
  walletName ≠ CurrentWallet (config w) →
  Wallets (config w) !! walletName = None →
  Part001.Switch walletName w = (Err (NotFound walletName), w).
Proof.
  intros H1 H2. unfold Part001.Switch. unfold_M. simpl.
  rewrite decide_False; [|done]. by rewrite decide_True.
Qed.

Lemma maingo_Switch_AlreadyActive (w : World) :
  MainGo.Switch (CurrentWallet (config w)) w
  = (Err (AlreadyActive (CurrentWallet (config w))), w).
Proof. unfold MainGo.Switch. unfold_M. simpl. by rewrite decide_True. Qed.

(** [Switch] of [MainGo] has no result [NotFound] at all. *)
Lemma maingo_Switch_never_NotFound (walletName other : string) (w : World) :
  (MainGo.Switch walletName w).1 ≠ Err (NotFound other).
Proof.
  unfold MainGo.Switch. rewrite run_bind, run_gets.
  destruct (decide (CurrentWallet (config w) = walletName)); [done|].
  rewrite run_bind.
  destruct (decide (CurrentWallet (config w) ≠ "")).
  - rewrite run_bind. unfold os_Rename at 1.
    destruct (Rename currentWalletDirName (CurrentWallet (config w)) (disk w))
      as [e1|d1]; [done|].
    cbn -[Rename]. unfold os_Rename. rewrite run_bind. cbn -[Rename].
    destruct (Rename walletName currentWalletDirName d1) as [e|]; [|done].
    cbn. by destruct (decide (e ≠ ENOENT)).
  - cbn -[Rename]. unfold os_Rename. rewrite run_bind. cbn -[Rename].
    destruct (Rename walletName currentWalletDirName (disk w)) as [e|]; [|done].
    cbn. by destruct (decide (e ≠ ENOENT)).
Qed.

(** C2, on [src/main.go]: [Switch] has no membership test.  For a name that
    is neither the current wallet nor a key of the map it does not return
    the error [NotFound]: it moves [data] back to the current wallet's name,
    takes the missing directory for a new wallet, makes the unknown name the
    current wallet and returns nil. *)
Theorem maingo_Switch_unknown_name :
  Wallets (config (twoWallets [])) !! "ghost" = None ∧
  "ghost" ≠ CurrentWallet (config (twoWallets [])) ∧
  MainGo.Switch "ghost" (twoWallets [])
  = (Ok (), mkWorld (mkConfig "cfg" "/w" "ghost" {[ "a" := "first"; "b" := "second" ]})
                    {[ "a" := walletDir; "b" := walletDir ]} []).
Proof. split; [done|]. split; [done|]. by vm_compute. Qed.

Lemma Rename_fresh (oldname newname : string) (d : Disk) (n : node) :
  Stat d oldname = Some n → newname ≠ "" → d !! newname = None →
  Rename oldname newname d = inr (<[newname := n]> (delete oldname d)).
Proof.
  intros Ho Hn Hd. unfold Rename. rewrite Ho, Hd. by rewrite decide_False.
Qed.

Lemma Rename_missing (oldname newname : string) (d : Disk) :
  Stat d oldname = None → Rename oldname newname d = inl ENOENT.
Proof. intros Ho. unfold Rename. by rewrite Ho. Qed.

Lemma Stat_Some (d : Disk) (name : string) (n : node) :
  Stat d name = Some n ↔ name ≠ "" ∧ d !! name = Some n.
Proof.
  unfold Stat. destruct (decide (name = "")) as [->|Hne].
  - split; [done|]. by intros [? _].
  - split; [done|]. by intros [_ ?].
Qed.

(** [Switch] in [Part001] when both renames find their source and a free
    destination. *)
Lemma part001_Switch_renames (c : Config) (d : Disk) (input : list string)
    (walletName : string) (nc nw : node) :
  CurrentWallet c ≠ walletName → CurrentWallet c ≠ "" →
  is_Some (Wallets c !! walletName) →
  walletName ≠ currentWalletDirName →
  d !! currentWalletDirName = Some nc →
  d !! CurrentWallet c = None →
  Stat d walletName = Some nw →
  Part001.Switch walletName (mkWorld c d input)
  = (Ok (), mkWorld (withCurrentWallet c walletName)
              (<[currentWalletDirName := nw]>
                 (delete walletName
                    (<[CurrentWallet c := nc]> (delete currentWalletDirName d))))
              input).
Proof.
  intros Hne Hcur [v Hv] Hdata Hslot Hfree Hw.
  apply Stat_Some in Hw as [Hw1 Hw2].
  assert (CurrentWallet c ≠ currentWalletDirName) by (intros E; congruence).
  unfold Part001.Switch. unfold_M. simpl.
  rewrite decide_False by done.
  rewrite (decide_False (P := Wallets c !! walletName = None)) by congruence.
  rewrite decide_True by done.
  rewrite (Rename_fresh _ _ _ nc) by done. simpl.
  rewrite (Rename_fresh _ _ _ nw).
  - done.
  - apply Stat_Some. split; [done|]. by rewrite lookup_insert_ne, lookup_delete_ne.
  - done.
  - by rewrite lookup_insert_ne, lookup_delete_eq.
Qed.

(** C3: with [a] current (its directory at [data], nothing at [a]) and the
    directory of [b] at [b], [Switch b] moves [data] to [a] and [b] to
    [data] and makes [b] the current wallet; [Switch a] afterwards brings
    the configuration and the directory back to where they were. *)
Theorem part001_Switch_round_trip (c : Config) (d : Disk) (input : list string)
    (a b : string) (na nb : node) :
  a ≠ b → a ≠ "" → b ≠ currentWalletDirName →
  CurrentWallet c = a →
  is_Some (Wallets c !! a) → is_Some (Wallets c !! b) →
  d !! currentWalletDirName = Some na → d !! a = None → Stat d b = Some nb →
  let d' := <[currentWalletDirName := nb]>
              (delete b (<[a := na]> (delete currentWalletDirName d))) in
  Part001.Switch b (mkWorld c d input)
  = (Ok (), mkWorld (withCurrentWallet c b) d' input) ∧
  d' !! a = Some na ∧ d' !! currentWalletDirName = Some nb ∧ d' !! b = None ∧
  Part001.Switch a (mkWorld (withCurrentWallet c b) d' input)
  = (Ok (), mkWorld c d input).
Proof.
  intros Hab Ha Hb Hcur Hka Hkb Hslot Hfree Hdb d'.
  assert (a ≠ currentWalletDirName) as Had by congruence.
  pose proof Hdb as [Hb' Hdb']%Stat_Some.
  assert (d' !! a = Some na) as Ea.
  { unfold d'. rewrite lookup_insert_ne, lookup_delete_ne, lookup_insert_eq; done. }
  assert (d' !! currentWalletDirName = Some nb) as Ed.
  { unfold d'. by rewrite lookup_insert_eq. }
  assert (d' !! b = None) as Eb.
  { unfold d'. rewrite lookup_insert_ne, lookup_delete_eq; done. }
  split; [|split; [done|split; [done|split; [done|]]]].
  - subst a. by apply part001_Switch_renames.
  - rewrite (part001_Switch_renames _ d' _ a nb na); simpl; try done.
    + f_equal. f_equal.
      * destruct c; simpl in *; by subst.
      * apply map_eq. intros k. unfold d'.
        destruct (decide (k = currentWalletDirName)) as [->|Hk1].
        { by rewrite lookup_insert_eq. }
        rewrite lookup_insert_ne by done.
        destruct (decide (k = a)) as [->|Hk2].
        { by rewrite lookup_delete_eq. }
        rewrite lookup_delete_ne by done.
        destruct (decide (k = b)) as [->|Hk3].
        { by rewrite lookup_insert_eq. }
        rewrite lookup_insert_ne, lookup_delete_ne by done.
        rewrite lookup_insert_ne, lookup_delete_ne by done.
        rewrite lookup_insert_ne, lookup_delete_ne by done.
        done.
    + by apply Stat_Some.
Qed.

Lemma part001_Switch_round_trip_witness :
  let w := twoWallets [] in
  let d' := <[currentWalletDirName := walletDir]>
              (delete "b" (<["a" := walletDir]> (delete currentWalletDirName (disk w)))) in
  Part001.Switch "b" (mkWorld (config w) (disk w) [])
  = (Ok (), mkWorld (withCurrentWallet (config w) "b") d' []) ∧
  d' !! "a" = Some walletDir ∧ d' !! currentWalletDirName = Some walletDir ∧
  d' !! "b" = None ∧
  Part001.Switch "a" (mkWorld (withCurrentWallet (config w) "b") d' [])
  = (Ok (), mkWorld (config w) (disk w) []).
Proof.
  apply (part001_Switch_round_trip (config (twoWallets [])) (disk (twoWallets [])) []
           "a" "b" walletDir walletDir);
    first [ discriminate | reflexivity | (vm_compute; eauto) ].
Defined.

(** ** [Edit] *)

(** In [Part001], [Edit] returns [NotFound] exactly for the names that are
    not keys of the map, and then nothing is touched. *)
Lemma part001_Edit_NotFound (walletName : string) (w : World) :
  Wallets (config w) !! walletName = None →
  Part001.Edit walletName w = (Err (NotFound walletName), w).
Proof. intros H. unfold Part001.Edit. unfold_M. simpl. by rewrite decide_True. Qed.

Lemma part001_Edit_found (walletName other : string) (w : World) :
  is_Some (Wallets (config w) !! walletName) →
  (Part001.Edit walletName w).1 ≠ Err (NotFound other).
Proof.
  intros [v Hv]. unfold Part001.Edit. unfold_M. simpl.
  rewrite decide_False by congruence.
  destruct (scanWalletName walletName (stdin w)) as [[newWalletName rest]|]; [|done].
  simpl. destruct rest as [|line rest]; [done|]. simpl.
  destruct (decide (CurrentWallet (config w) = walletName)); simpl.
  { by destruct (decide (walletName ≠ newWalletName)). }
  destruct (decide (newWalletName ≠ walletName)); simpl.
  - destruct (Rename walletName newWalletName (disk w)); simpl; [done|].
    by destruct (decide (walletName ≠ newWalletName)).
  - by destruct (decide (walletName ≠ newWalletName)).
Qed.

Lemma part001_Edit_NotFound_iff (walletName : string) (w : World) :
  (Part001.Edit walletName w).1 = Err (NotFound walletName)
  ↔ Wallets (config w) !! walletName = None.
Proof.
  split.
  - intros H. destruct (Wallets (config w) !! walletName) eqn:E; [|done].
    by destruct (part001_Edit_found walletName walletName w).
  - intros H. by rewrite part001_Edit_NotFound.
Qed.

(** [Edit] of [MainGo] takes every name whose entry reads as the empty
    string for missing: a wallet without a description as much as a name
    that is no key. *)
Lemma maingo_Edit_NotFound (walletName : string) (w : World) :
  index (Wallets (config w)) walletName = "" →
  MainGo.Edit walletName w = (Err (NotFound walletName), w).
Proof.
  intros H. unfold MainGo.Edit. rewrite run_bind, run_gets. by rewrite decide_True.
Qed.

(** C5, on [src/main.go]: [Edit] tests [config.Wallets[walletName] == ""],
    so a wallet stored with the empty description is a key of the map and
    still gets the error [NotFound]. *)
Theorem maingo_Edit_empty_description :
  let w := mkWorld (mkConfig "cfg" "/w" "" {[ "a" := "" ]})
                   {[ "a" := walletDir ]} ["b"; "text"] in
  Wallets (config w) !! "a" = Some "" ∧
  MainGo.Edit "a" w = (Err (NotFound "a"), w).
Proof. split; by vm_compute. Qed.

Lemma withCurrentWallet_id (c : Config) : withCurrentWallet c (CurrentWallet c) = c.
Proof. by destruct c. Qed.


(** C9: for a key of the map other than the reserved name, [Edit] with both
    prompts answered by an empty line returns nil and leaves the
    configuration (the key and its description, the current wallet) and the
    directory as they were: no rename is made. *)
Theorem part001_Edit_defaults (c : Config) (d : Disk) (walletName : string)
    (rest : list string) :
  is_Some (Wallets c !! walletName) →
  walletName ≠ currentWalletDirName →
  Part001.Edit walletName (mkWorld c d ("" :: "" :: rest))
  = (Ok (), mkWorld c d rest).
Proof.
  intros [v Hv] Hname. unfold Part001.Edit. unfold_M. cbn -[scanWalletName].
  rewrite decide_False by congruence. cbn -[scanWalletName].
  rewrite scanWalletName_default by done. cbn.
  assert (<[walletName := index (Wallets c) walletName]> (Wallets c) = Wallets c) as E.
  { apply insert_id. unfold index. by rewrite Hv. }
  destruct (decide (CurrentWallet c = walletName)) as [Hc|Hc]; cbn.
  - rewrite decide_False by (intros ?; done). cbn.
    rewrite (decide_True (P := "" = "")) by done. rewrite E.
    destruct c; simpl in *; by subst.
  - rewrite decide_False by (intros ?; done). cbn.
    rewrite decide_False by (intros ?; done). cbn.
    rewrite (decide_True (P := "" = "")) by done. rewrite E.
    by destruct c.
Qed.

Lemma part001_Edit_defaults_witness :
  Part001.Edit "b" (mkWorld (config (twoWallets [])) (disk (twoWallets [])) ["" ; ""; "left"])
  = (Ok (), mkWorld (config (twoWallets [])) (disk (twoWallets [])) ["left"]).
Proof.
  apply part001_Edit_defaults; [vm_compute; eauto | discriminate].
Defined.

(** [Edit] of a wallet that is not the current one, under a new name and
    with a new description: once [os.Rename] has moved the directory the new
    key is written and the old one deleted, whether or not the new name was
    a key already. *)
Lemma part001_Edit_rename (c : Config) (d d' : Disk) (a b description : string)
    (rest : list string) :
  is_Some (Wallets c !! a) → CurrentWallet c ≠ a →
  b ≠ a → b ≠ "" → b ≠ currentWalletDirName → description ≠ "" →
  Rename a b d = inr d' →
  Part001.Edit a (mkWorld c d (b :: description :: rest))
  = (Ok (), mkWorld (withWallets c (delete a (<[b := description]> (Wallets c)))) d' rest).
Proof.
  intros [v Hv] Hc Hba Hb Hdata Hdesc Hren.
  unfold Part001.Edit. unfold_M. cbn -[scanWalletName].
  rewrite decide_False by congruence. cbn -[scanWalletName].
  rewrite scanWalletName_line by done. cbn.
  rewrite (decide_False (P := CurrentWallet c = a)) by done.
  rewrite decide_True by done. cbn. rewrite Hren. cbn.
  rewrite decide_True by done. cbn.
  by rewrite (decide_False (P := description = "")) by done.
Qed.

(** When [os.Rename] refuses (a directory is in the way at the new name)
    [Edit] returns its error and the map is as before. *)
Lemma part001_Edit_rename_refused (c : Config) (d : Disk) (a b description : string)
    (rest : list string) (e : errno) :
  is_Some (Wallets c !! a) → CurrentWallet c ≠ a →
  b ≠ a → b ≠ "" → b ≠ currentWalletDirName →
  Rename a b d = inl e →
  Part001.Edit a (mkWorld c d (b :: description :: rest))
  = (Err (IOError e), mkWorld c d rest).
Proof.
  intros [v Hv] Hc Hba Hb Hdata Hren.
  unfold Part001.Edit. unfold_M. cbn -[scanWalletName].
  rewrite decide_False by congruence. cbn -[scanWalletName].
  rewrite scanWalletName_line by done. cbn.
  rewrite (decide_False (P := CurrentWallet c = a)) by done.
  rewrite decide_True by done. cbn. by rewrite Hren.
Qed.

Lemma maingo_Edit_rename (c : Config) (d d' : Disk) (a b description : string)
    (rest : list string) :
  index (Wallets c) a ≠ "" → CurrentWallet c ≠ a →
  b ≠ a → b ≠ "" → b ≠ currentWalletDirName → description ≠ "" →
  Rename a b d = inr d' →
  MainGo.Edit a (mkWorld c d (b :: description :: rest))
  = (Ok (), mkWorld (withWallets c (delete a (<[b := description]> (Wallets c)))) d' rest).
Proof.
  intros Hv Hc Hba Hb Hdata Hdesc Hren.
  unfold MainGo.Edit. unfold_M. cbn -[scanWalletName].
  rewrite decide_False by done. cbn -[scanWalletName].
  rewrite scanWalletName_line by done. cbn.
  rewrite (decide_False (P := CurrentWallet c = a)) by done.
  rewrite decide_True by done. cbn. rewrite Hren. cbn.
  rewrite decide_True by done. cbn.
  by rewrite (decide_False (P := description = "")) by done.
Qed.

(** C10: [Edit] has no test of the new name against the keys of the map
    (both revisions).  There is a configuration with two keys [a] and [b],
    neither of them current, where [Edit a] answered with the name [b]
    returns nil: the entry of [b] now holds the description entered for [a],
    the key [a] is gone, the map has one entry less and the description that
    [b] had is lost. *)
Theorem Edit_onto_existing_key :
  ∃ (w w' : World) (a b description previous : string),
    a ≠ b ∧ CurrentWallet (config w) ≠ a ∧ CurrentWallet (config w) ≠ b ∧
    is_Some (Wallets (config w) !! a) ∧
    Wallets (config w) !! b = Some previous ∧ previous ≠ description ∧
    stdin w = [b; description] ∧
    Part001.Edit a w = (Ok (), w') ∧
    MainGo.Edit a w = (Ok (), w') ∧
    Wallets (config w') = <[b := description]> (delete a (Wallets (config w))) ∧
    Wallets (config w') !! a = None ∧
    Wallets (config w') !! b = Some description ∧
    size (Wallets (config w')) + 1 = size (Wallets (config w)).
Proof.
  exists (strayWallets ["b"; "third"]).
  exists (mkWorld (mkConfig "cfg" "/w" "" {[ "b" := "third" ]}) {[ "b" := walletDir ]} []).
  exists "a", "b", "third", "second".
  repeat split; try discriminate; try (by vm_compute).
  vm_compute. eauto.
Qed.

(** ** [Remove] *)

(** C7: for a key of the map, a confirmation other than [yes] makes
    [Remove] return the error [Aborted]; the configuration and the directory
    are as before, and only the line of the answer has been read. *)
Theorem part001_Remove_not_confirmed (order : MapOrder) (c : Config) (d : Disk)
    (walletName confirmation : string) (rest : list string) :
  is_Some (Wallets c !! walletName) →
  confirmation ≠ "yes" →
  Part001.Remove order walletName (mkWorld c d (confirmation :: rest))
  = (Err Aborted, mkWorld c d rest).
Proof.
  intros [v Hv] Hno. unfold Part001.Remove. unfold_M. cbn.
  rewrite decide_False by congruence. cbn.
  by rewrite decide_False by done.
Qed.

Lemma part001_Remove_not_confirmed_witness :
  Part001.Remove listOrder "a"
    (mkWorld (config (twoWallets [])) (disk (twoWallets [])) ["no"])
  = (Err Aborted, mkWorld (config (twoWallets [])) (disk (twoWallets [])) []).
Proof.
  apply part001_Remove_not_confirmed; [vm_compute; eauto | discriminate].
Defined.

(** ** [Forget] *)

(** C6: the current wallet is the only key of the map and nothing on disk
    carries its name.  [Forget] returns nil, the map is empty and no wallet
    is current; what was at [data] is now at the wallet's name, and a
    missing [data] is tolerated (the directory is then left as it is). *)
Theorem part001_Forget_only_wallet (order : MapOrder) (c : Config) (d : Disk)
    (input : list string) (walletName description : string) :
  walletName ≠ "" →
  CurrentWallet c = walletName →
  Wallets c = {[ walletName := description ]} →
  d !! walletName = None →
  Part001.Forget order walletName (mkWorld c d input)
  = (Ok (),
     mkWorld (mkConfig (configFilePath c) (WalletsDir c) "" ∅)
       match d !! currentWalletDirName with
       | Some n => <[walletName := n]> (delete currentWalletDirName d)
       | None => d
       end
       input).
Proof.
  intros Hname Hcur Hmap Hfree.
  unfold Part001.Forget, Part001.switchToFirstWallet. unfold_M. cbn.
  rewrite Hmap, lookup_singleton_eq.
  rewrite decide_False by done.
  rewrite decide_True by done. cbn.
  destruct (d !! currentWalletDirName) as [n|] eqn:Hslot.
  - rewrite (Rename_fresh _ _ _ n) by done. cbn.
    rewrite Hmap, delete_singleton_eq, first_key_empty. done.
  - rewrite Rename_missing by done. cbn.
    rewrite decide_False by (intros ?; done). cbn.
    rewrite Hmap, delete_singleton_eq, first_key_empty. done.
Qed.

Lemma part001_Forget_only_wallet_witness :
  Part001.Forget listOrder "a"
    (mkWorld (mkConfig "cfg" "/w" "a" {[ "a" := "first" ]}) {[ "data" := walletDir ]} [])
  = (Ok (), mkWorld (mkConfig "cfg" "/w" "" ∅) {[ "a" := walletDir ]} []).
Proof.
  rewrite (part001_Forget_only_wallet listOrder _ _ _ "a" "first");
    [by vm_compute | discriminate | reflexivity | reflexivity | by vm_compute].
Defined.

(** ** [addWallet] *)

(** For a directory with a name other than [data] no name is asked for: the
    wallet takes the name of the directory and the next line as its
    description. *)
Lemma part001_addWallet_named (walletDirName : string) (changeCurrentWallet : bool)
    (w : World) :
  walletDirName ≠ currentWalletDirName →
  Part001.addWallet walletDirName changeCurrentWallet w
  = match stdin w with
    | [] => (Exit, w)
    | description :: rest =>
        (Ok (), mkWorld (withWallets (config w)
                           (<[walletDirName := description]> (Wallets (config w))))
                  (disk w) rest)
    end.
Proof.
  intros Hname. unfold Part001.addWallet.
  rewrite decide_False, bool_decide_eq_false_2, andb_false_r by done.
  rewrite run_bind, run_ret, run_bind, run_ret, run_bind.
  unfold scanLine. by destruct w as [c d [|description rest]].
Qed.

(** [Switch] in [Part001] to a wallet whose directory does not exist yet,
    with no wallet current: nothing moves. *)
Lemma part001_Switch_new (c : Config) (d : Disk) (input : list string)
    (walletName : string) :
  CurrentWallet c = "" → walletName ≠ "" →
  is_Some (Wallets c !! walletName) →
  Stat d walletName = None →
  Part001.Switch walletName (mkWorld c d input)
  = (Ok (), mkWorld (withCurrentWallet c walletName) d input).
Proof.
  intros Hcur Hname [v Hv] Hstat. unfold Part001.Switch.
  rewrite run_bind, run_gets. cbn [config]. rewrite Hcur.
  rewrite decide_False by done.
  rewrite run_bind, run_gets. cbn [config].
  rewrite (decide_False (P := Wallets c !! walletName = None)) by congruence.
  rewrite (decide_False (P := "" ≠ "")) by (intros ?; done).
  rewrite run_bind, run_ret, run_bind.
  unfold os_Rename. cbn [disk]. rewrite Rename_missing by done.
  by rewrite (decide_False (P := ENOENT ≠ ENOENT)) by (intros ?; done).
Qed.

(** ** [Add] *)

(** C8, as stated, fails on an empty root: [Add alpha] returns nil there and
    no directory [data] exists afterwards, since the rename of the missing
    [alpha] is skipped and nothing is created. *)
Lemma part001_Add_alpha_without_data :
  let w := mkWorld (mkConfig "cfg" "/w" "" ∅) ∅ ["text"] in
  Stat (disk w) "alpha" = None ∧
  Part001.Add "alpha" w
  = (Ok (), mkWorld (mkConfig "cfg" "/w" "alpha" {[ "alpha" := "text" ]}) ∅ []) ∧
  ¬ ∃ w', Part001.Add "alpha" w = (Ok (), w') ∧
          is_Some (Stat (disk w') currentWalletDirName).
Proof.
  split; [done|]. split; [by vm_compute|].
  intros (w' & Hrun & n & Hn). vm_compute in Hrun.
  injection Hrun as <-. vm_compute in Hn. discriminate Hn.
Qed.

(** C8, amended: from the configuration with root [/w], no current wallet
    and no wallets, with nothing at [alpha] on disk, [Add alpha] returns nil;
    the map holds the entered description under [alpha], [alpha] is the
    current wallet, and the directory is left as it was (so [alpha] still
    does not exist, and [data] exists afterwards exactly when it existed
    before). *)
Theorem part001_Add_new_wallet (path : string) (d : Disk) (description : string)
    (rest : list string) :
  Stat d "alpha" = None →
  Part001.Add "alpha" (mkWorld (mkConfig path "/w" "" ∅) d (description :: rest))
  = (Ok (), mkWorld (mkConfig path "/w" "alpha" {[ "alpha" := description ]}) d rest).
Proof.
  intros Hstat. unfold Part001.Add.
  rewrite run_bind, run_os_Stat. cbn [config disk stdin]. rewrite Hstat.
  rewrite run_bind, run_ret, run_bind.
  rewrite part001_addWallet_named by discriminate. cbn [config disk stdin].
  rewrite part001_Switch_new; [done|done|done| |done].
  cbn. by rewrite lookup_insert_eq.
Qed.

Lemma part001_Add_new_wallet_witness :
  Part001.Add "alpha" (mkWorld (mkConfig "cfg" "/w" "" ∅) {[ "data" := walletDir ]} ["text"])
  = (Ok (), mkWorld (mkConfig "cfg" "/w" "alpha" {[ "alpha" := "text" ]})
              {[ "data" := walletDir ]} []).
Proof. apply part001_Add_new_wallet. by vm_compute. Defined.

(** C4, on [src/main.go]: [Add] ends with [Switch(config, walletDirName)],
    the name of the directory, not the name the wallet was given.  Adding
    the directory [data] under the name [second] returns nil, and the
    current wallet is then [data], which is not the wallet just added and
    not a key of the map. *)
Theorem maingo_Add_reserved_name :
  MainGo.Add "data" (oneWallet ["second"; "text"])
  = (Ok (), mkWorld (mkConfig "cfg" "/w" "data" {[ "main" := "first"; "second" := "text" ]})
              {[ "main" := walletDir ]} []).
Proof. by vm_compute. Qed.

(** ** The invariant of the data model in [Part001] *)

Lemma os_Rename_config (oldname newname : string) (w w' : World) (r : result (option errno)) :
  os_Rename oldname newname w = (r, w') → config w' = config w.
Proof.
  unfold os_Rename. destruct (Rename oldname newname (disk w)); by intros [= _ <-].
Qed.

(** [Switch] returns nil only for a key of the map other than the current
    wallet, and then only the current wallet of the configuration changes. *)
Lemma part001_Switch_Ok (walletName : string) (w w' : World) :
  Part001.Switch walletName w = (Ok (), w') →
  config w' = withCurrentWallet (config w) walletName ∧
  is_Some (Wallets (config w) !! walletName) ∧
  walletName ≠ CurrentWallet (config w).
Proof.
  unfold Part001.Switch. rewrite run_bind, run_gets.
  case_decide as Hcur; [done|].
  rewrite run_bind, run_gets.
  case_decide as Hkey; [done|].
  intros (u & w1 & H1 & H2)%bind_Ok.
  assert (config w1 = config w) as E1.
  { case_decide.
    - apply bind_Ok in H1 as (err & w0 & Hr & Hm).
      apply os_Rename_config in Hr. destruct err; [done|].
      injection Hm as _ <-. done.
    - by injection H1 as _ <-. }
  apply bind_Ok in H2 as (err & w2 & Hr & Hm).
  apply os_Rename_config in Hr.
  assert (config w' = withCurrentWallet (config w2) walletName) as E2.
  { destruct err as [e|].
    - case_decide; [done|]. by injection Hm as <-.
    - by injection Hm as <-. }
  rewrite E2, Hr, E1. split; [done|]. split; [|done].
  by apply not_eq_None_Some.
Qed.

Lemma invariant_Switch (c : Config) (walletName : string) :
  invariant c → is_Some (Wallets c !! walletName) →
  invariant (withCurrentWallet c walletName).
Proof.
  intros (_ & _ & Hdata) Hkey. repeat split; simpl.
  - by right.
  - intros ->. rewrite Hdata in Hkey. by destruct Hkey.
  - done.
Qed.

Lemma part001_Switch_invariant (walletName : string) (w w' : World) :
  invariant (config w) → Part001.Switch walletName w = (Ok (), w') →
  invariant (config w').
Proof.
  intros Hinv (-> & Hkey & _)%part001_Switch_Ok. by apply invariant_Switch.
Qed.

Lemma part001_switchToFirstWallet_invariant (order : MapOrder) (w w' : World) :
  invariant (config w) → Part001.switchToFirstWallet order w = (Ok (), w') →
  invariant (config w').
Proof.
  intros Hinv. unfold Part001.switchToFirstWallet. rewrite run_bind, run_gets.
  destruct (first_key order (Wallets (config w))).
  - by apply part001_Switch_invariant.
  - by intros [= <-].
Qed.

(** What [addWallet] leaves behind when it returns: a wallet under a name
    other than [data] (the name of the directory, unless that is [data]); it
    is made the current wallet when the directory is [data] and the caller
    asks for it. *)
Lemma part001_addWallet_Ok (walletDirName : string) (changeCurrentWallet : bool)
    (w w' : World) :
  Part001.addWallet walletDirName changeCurrentWallet w = (Ok (), w') →
  ∃ walletName description,
    walletName ≠ currentWalletDirName ∧
    (walletDirName ≠ currentWalletDirName → walletName = walletDirName) ∧
    disk w' = disk w ∧
    config w' =
      withWallets
        (if changeCurrentWallet && bool_decide (walletDirName = currentWalletDirName)
         then withCurrentWallet (config w) walletName else config w)
        (<[walletName := description]> (Wallets (config w))).
Proof.
  unfold Part001.addWallet.
  intros (walletName & w1 & H1 & H2)%bind_Ok.
  apply bind_Ok in H2 as (u & w2 & H2 & H3).
  apply bind_Ok in H3 as (description & w3 & H3 & H4).
  exists walletName, description.
  assert (walletName ≠ currentWalletDirName ∧
          (walletDirName ≠ currentWalletDirName → walletName = walletDirName) ∧
          config w1 = config w ∧ disk w1 = disk w) as (Hname & Hdir & Ec1 & Ed1).
  { case_decide as Hd.
    - unfold scanWalletName_for in H1.
      destruct (scanWalletName walletDirName (stdin w)) as [[n rest]|] eqn:Hscan; [|done].
      injection H1 as <- <-. apply scanWalletName_valid in Hscan. done.
    - by injection H1 as <- <-. }
  assert (disk w2 = disk w1 ∧
          config w2 = if changeCurrentWallet && bool_decide (walletDirName = currentWalletDirName)
                      then withCurrentWallet (config w1) walletName else config w1)
    as (Ed2 & Ec2).
  { destruct (changeCurrentWallet && bool_decide (walletDirName = currentWalletDirName)).
    - rewrite run_setCurrentWallet in H2. by injection H2 as _ <-.
    - by injection H2 as _ <-. }
  assert (config w3 = config w2 ∧ disk w3 = disk w2) as (Ec3 & Ed3).
  { unfold scanLine in H3. destruct (stdin w2); [done|]. by injection H3 as _ <-. }
  rewrite run_putWallet in H4. injection H4 as <-. simpl.
  split; [done|]. split; [done|]. split; [congruence|].
  rewrite Ec3, Ec2, Ec1.
  by destruct (changeCurrentWallet && bool_decide (walletDirName = currentWalletDirName)).
Qed.

Lemma part001_addWallet_invariant (walletDirName : string) (changeCurrentWallet : bool)
    (w w' : World) :
  invariant (config w) →
  Part001.addWallet walletDirName changeCurrentWallet w = (Ok (), w') →
  invariant (config w').
Proof.
  intros (Hcur & Hres & Hdata) (n & description & Hn & _ & _ & ->)%part001_addWallet_Ok.
  destruct (changeCurrentWallet && bool_decide (walletDirName = currentWalletDirName));
    repeat split; simpl.
  - right. by rewrite lookup_insert_eq.
  - done.
  - by rewrite lookup_insert_ne.
  - destruct Hcur as [?|Hkey]; [by left|right].
    destruct (decide (n = CurrentWallet (config w))) as [->|Hne].
    + by rewrite lookup_insert_eq.
    + by rewrite lookup_insert_ne.
  - done.
  - by rewrite lookup_insert_ne.
Qed.

Lemma part001_Init_for_invariant (wallets : list string) (w w' : World) :
  invariant (config w) → Part001.Init_for wallets w = (Ok (), w') →
  invariant (config w').
Proof.
  revert w. induction wallets as [|walletDirName wallets IH]; intros w Hinv; simpl.
  - by intros [= <-].
  - intros ([] & w1 & H1 & H2)%bind_Ok.
    eapply IH; [|done]. by eapply part001_addWallet_invariant.
Qed.

Lemma getWallets_for_world (walletsDir : string) (walletEntries wallets : list string)
    (w w' : World) :
  getWallets_for walletsDir walletEntries w = (Ok wallets, w') → w' = w.
Proof.
  revert wallets w'. induction walletEntries as [|name rest IH]; intros wallets w'; simpl.
  - by intros [= _ <-].
  - intros (b & w1 & H1 & H2)%bind_Ok.
    apply bind_Ok in H2 as (ws & w2 & H2 & H3).
    injection H1 as _ <-. apply IH in H2 as ->. by injection H3 as _ <-.
Qed.

Lemma getWallets_world (walletsDir : string) (wallets : list string) (w w' : World) :
  getWallets walletsDir w = (Ok wallets, w') → w' = w.
Proof.
  unfold getWallets. intros (r & w1 & H1 & H2)%bind_Ok.
  injection H1 as <- <-. destruct (ReadDir (disk w)); [done|].
  by apply getWallets_for_world in H2.
Qed.

(** [Init] establishes the invariant, whatever configuration it starts
    from. *)
Lemma part001_Init_invariant (order : MapOrder) (w w' : World) :
  Part001.Init order w = (Ok (), w') → invariant (config w').
Proof.
  unfold Part001.Init.
  intros (walletsDir & w1 & H1 & H2)%bind_Ok. injection H1 as _ <-.
  apply bind_Ok in H2 as (wallets & w2 & H2 & H3). apply getWallets_world in H2 as ->.
  apply bind_Ok in H3 as (u1 & w3 & H3 & H4).
  apply bind_Ok in H4 as (u2 & w4 & H4 & H5).
  apply bind_Ok in H5 as ([] & w5 & H5 & H6).
  apply bind_Ok in H6 as (current & w6 & H6 & H7). injection H6 as _ <-.
  assert (invariant (config w4)) as Hinv4.
  { injection H3 as _ <-. injection H4 as _ <-.
    split; [by left|]. split; [discriminate|done]. }
  apply part001_Init_for_invariant in H5; [|done].
  case_decide.
  - by apply (part001_switchToFirstWallet_invariant order w5).
  - by injection H7 as <-.
Qed.

Lemma invariant_delete (c : Config) (walletName : string) :
  invariant c → CurrentWallet c ≠ walletName →
  invariant (withWallets c (delete walletName (Wallets c))).
Proof.
  intros (Hcur & Hres & Hdata) Hne. repeat split; simpl.
  - destruct Hcur as [?|Hkey]; [by left|right]. by rewrite lookup_delete_ne.
  - done.
  - rewrite lookup_delete. by case_decide.
Qed.

Lemma invariant_forget (c : Config) (walletName : string) :
  invariant c →
  invariant (withCurrentWallet (withWallets c (delete walletName (Wallets c))) "").
Proof.
  intros (_ & _ & Hdata). repeat split; simpl.
  - by left.
  - discriminate.
  - rewrite lookup_delete. by case_decide.
Qed.

(** The configuration after [Edit] has returned nil. *)
Lemma part001_Edit_Ok (walletName : string) (w w' : World) :
  Part001.Edit walletName w = (Ok (), w') →
  ∃ newWalletName newWalletDescription,
    newWalletName ≠ currentWalletDirName ∧
    is_Some (Wallets (config w) !! walletName) ∧
    config w' =
      withWallets
        (if decide (CurrentWallet (config w) = walletName)
         then withCurrentWallet (config w) newWalletName else config w)
        (if decide (walletName ≠ newWalletName)
         then delete walletName
                (<[newWalletName := newWalletDescription]> (Wallets (config w)))
         else <[newWalletName := newWalletDescription]> (Wallets (config w))).
Proof.
  unfold Part001.Edit. rewrite run_bind, run_gets.
  case_decide as Hkey; [done|].
  intros (newWalletName & w1 & H1 & H2)%bind_Ok.
  apply bind_Ok in H2 as (line & w2 & H2 & H3).
  rewrite run_bind, run_gets in H3.
  apply bind_Ok in H3 as ([] & w3 & H3 & H4).
  apply bind_Ok in H4 as ([] & w4 & H4 & H5).
  exists newWalletName,
    (if decide (line = "") then index (Wallets (config w)) walletName else line).
  assert (newWalletName ≠ currentWalletDirName ∧ config w1 = config w) as (Hnew & E1).
  { unfold scanWalletName_for in H1.
    destruct (scanWalletName walletName (stdin w)) as [[n rest]|] eqn:Hscan; [|done].
    injection H1 as <- <-. by apply scanWalletName_valid in Hscan. }
  assert (config w2 = config w1) as E2.
  { unfold scanLine in H2. destruct (stdin w1); [done|]. by injection H2 as _ <-. }
  assert (config w3 = if decide (CurrentWallet (config w) = walletName)
                      then withCurrentWallet (config w) newWalletName else config w) as E3.
  { rewrite E2, E1 in H3. revert H3.
    destruct (decide (CurrentWallet (config w) = walletName)) as [Hc|Hc]; intros H3.
    - rewrite run_setCurrentWallet in H3. injection H3 as <-. simpl. congruence.
    - revert H3. destruct (decide (newWalletName ≠ walletName)) as [Hn|Hn]; intros H3.
      + apply bind_Ok in H3 as (err & w0 & Hr & Hm). apply os_Rename_config in Hr.
        destruct err; [done|]. injection Hm as <-. congruence.
      + injection H3 as <-. congruence. }
  rewrite run_putWallet in H4. injection H4 as <-.
  split; [done|]. split; [by apply not_eq_None_Some|].
  assert (Wallets (config w3) = Wallets (config w)) as EW.
  { rewrite E3. by case_decide. }
  revert H5. destruct (decide (walletName ≠ newWalletName)) as [Hd|Hd]; intros H5.
  - rewrite run_deleteWallet in H5. injection H5 as <-. simpl.
    by rewrite EW, E3.
  - injection H5 as <-. simpl. by rewrite EW, E3.
Qed.

Lemma part001_Edit_invariant (walletName : string) (w w' : World) :
  invariant (config w) → Part001.Edit walletName w = (Ok (), w') →
  invariant (config w').
Proof.
  intros (Hcur & Hres & Hdata) (n & description & Hn & Hkey & ->)%part001_Edit_Ok.
  set (wallets := if decide (walletName ≠ n)
                  then delete walletName (<[n := description]> (Wallets (config w)))
                  else <[n := description]> (Wallets (config w))).
  assert (∀ k, k ≠ walletName → is_Some (Wallets (config w) !! k) →
               is_Some (wallets !! k)) as Hkeep.
  { intros k Hk Hin. unfold wallets. destruct (decide (walletName ≠ n)).
    - rewrite lookup_delete_ne by done. rewrite lookup_insert. by case_decide.
    - rewrite lookup_insert. by case_decide. }
  assert (wallets !! n = Some description) as Hnew.
  { unfold wallets. destruct (decide (walletName ≠ n)).
    - rewrite lookup_delete_ne by done. by rewrite lookup_insert_eq.
    - by rewrite lookup_insert_eq. }
  assert (wallets !! currentWalletDirName = None) as Hfree.
  { unfold wallets. destruct (decide (walletName ≠ n)).
    - rewrite lookup_delete. case_decide; [done|]. by rewrite lookup_insert_ne.
    - by rewrite lookup_insert_ne. }
  destruct (decide (CurrentWallet (config w) = walletName)) as [Hc|Hc];
    (split; [|split]); simpl; try done.
  - right. by rewrite Hnew.
  - destruct Hcur as [?|Hin]; [by left|right]. by apply Hkeep.
Qed.

Lemma part001_Add_invariant (walletDirName : string) (w w' : World) :
  invariant (config w) → Part001.Add walletDirName w = (Ok (), w') →
  invariant (config w').
Proof.
  intros Hinv. unfold Part001.Add.
  intros (info & w1 & H1 & H2)%bind_Ok. injection H1 as <- <-.
  apply bind_Ok in H2 as ([] & w2 & H2 & H3).
  apply bind_Ok in H3 as ([] & w3 & H3 & H4).
  assert (w2 = w) as ->.
  { destruct (Stat (disk w) walletDirName) as [[|children]|].
    - done.
    - rewrite run_bind, run_gets, run_bind in H2. unfold isWalletDir in H2.
      destruct (Stat (disk w) walletDirName) as [[|ch]|]; try done.
      destruct (bool_decide (ch !! "salt" = Some RegularFile)); [|done].
      by injection H2 as <-.
    - by injection H2 as <-. }
  eapply part001_Switch_invariant; [|done].
  by eapply part001_addWallet_invariant.
Qed.

Lemma part001_Forget_invariant (order : MapOrder) (walletName : string) (w w' : World) :
  invariant (config w) → Part001.Forget order walletName w = (Ok (), w') →
  invariant (config w').
Proof.
  intros Hinv. unfold Part001.Forget. rewrite run_bind, run_gets.
  case_decide as Hkey; [done|]. rewrite run_bind, run_gets.
  case_decide as Hcur.
  - intros (err & w1 & Hr & Hm)%bind_Ok. apply os_Rename_config in Hr.
    assert ((deleteWallet walletName;; setCurrentWallet "";;
             Part001.switchToFirstWallet order) w1 = (Ok (), w')) as Hrest.
    { destruct err as [e|]; [|done]. by case_decide. }
    apply bind_Ok in Hrest as ([] & w2 & H2 & H3).
    apply bind_Ok in H3 as ([] & w3 & H3 & H4).
    rewrite run_deleteWallet in H2. injection H2 as <-.
    rewrite run_setCurrentWallet in H3. injection H3 as <-.
    apply (part001_switchToFirstWallet_invariant order _ _) in H4; [done|].
    simpl. rewrite Hr. by apply invariant_forget.
  - rewrite run_deleteWallet. intros [= <-]. simpl. by apply invariant_delete.
Qed.

Lemma part001_Remove_invariant (order : MapOrder) (walletName : string) (w w' : World) :
  invariant (config w) → Part001.Remove order walletName w = (Ok (), w') →
  invariant (config w').
Proof.
  intros Hinv. unfold Part001.Remove. rewrite run_bind, run_gets.
  case_decide as Hkey; [done|].
  intros (confirmation & w1 & H1 & H2)%bind_Ok.
  assert (config w1 = config w) as E1.
  { unfold scanLine in H1. destruct (stdin w); [done|]. by injection H1 as _ <-. }
  case_decide; [|done].
  apply bind_Ok in H2 as ([] & w2 & H2 & H3).
  apply part001_Forget_invariant in H2; [|by rewrite E1].
  apply bind_Ok in H3 as (err & w3 & H3 & H4).
  unfold os_RemoveAll, RemoveAll in H3. injection H3 as <- <-.
  by injection H4 as <-.
Qed.

(** In [Part001] every configuration that the program writes back satisfies
    the invariant. *)
Lemma part001_reachable_invariant (c : Config) :
  Part001.reachable c → invariant c.
Proof.
  induction 1 as [order c d input w' Hinit|order op c d input w' Hreach IH Hrun].
  - by eapply part001_Init_invariant.
  - destruct op; simpl in Hrun.
    + by eapply part001_Init_invariant.
    + eapply part001_Switch_invariant; [|exact Hrun]; exact IH.
    + eapply part001_Edit_invariant; [|exact Hrun]; exact IH.
    + eapply part001_Add_invariant; [|exact Hrun]; exact IH.
    + eapply part001_Forget_invariant; [|exact Hrun]; exact IH.
    + eapply part001_Remove_invariant; [|exact Hrun]; exact IH.
Qed.

(** C1, on [src/main.go]: the invariant is not kept.  [Init] on a root that
    holds the directory [data] names it [main]; [Add data] then returns nil
    with [data] as the current wallet: the reserved name, and not a key of
    the map.  ([Switch] without a membership test lets this through; in
    [Part001] the invariant holds, see [part001_reachable_invariant].) *)
Theorem maingo_reachable_reserved_name :
  ∃ c : Config,
    MainGo.reachable c ∧
    CurrentWallet c = currentWalletDirName ∧
    Wallets c !! CurrentWallet c = None ∧
    ¬ invariant c.
Proof.
  exists (mkConfig "cfg" "/w" "data" {[ "main" := "first"; "second" := "text" ]}).
  split; [|split; [done|split; [by vm_compute|]]].
  - apply (MainGo.reachable_run listOrder (MainGo.DoAdd "data")
             (config (oneWallet [])) (disk (oneWallet [])) ["second"; "text"]
             (mkWorld (mkConfig "cfg" "/w" "data" {[ "main" := "first"; "second" := "text" ]})
                      {[ "main" := walletDir ]} [])).
    + apply (MainGo.reachable_Init listOrder (mkConfig "cfg" "/w" "" ∅)
               {[ "data" := walletDir ]} ["main"; "first"] (oneWallet [])).
      by vm_compute.
    + by vm_compute.
  - intros (_ & Hres & _). by apply Hres.
Qed.

(** In [Part001], on a configuration without the key [data], [Add] returns
    nil only for a directory with a name other than [data]; the wallet of
    that name is then in the map with the entered description and is the
    current wallet. *)
Lemma part001_Add_activates (walletDirName : string) (w w' : World) :
  Wallets (config w) !! currentWalletDirName = None →
  Part001.Add walletDirName w = (Ok (), w') →
  walletDirName ≠ currentWalletDirName ∧
  CurrentWallet (config w') = walletDirName ∧
  ∃ description,
    Wallets (config w') = <[walletDirName := description]> (Wallets (config w)).
Proof.
  intros Hdata. unfold Part001.Add.
  intros (info & w1 & H1 & H2)%bind_Ok.
  apply bind_Ok in H2 as ([] & w2 & H2 & H3).
  apply bind_Ok in H3 as ([] & w3 & H3 & H4).
  assert (config w2 = config w) as E2.
  { injection H1 as <- <-. destruct (Stat (disk w) walletDirName) as [[|children]|].
    - done.
    - rewrite run_bind, run_gets, run_bind in H2. unfold isWalletDir in H2.
      destruct (Stat (disk w) walletDirName) as [[|ch]|]; try done.
      destruct (bool_decide (ch !! "salt" = Some RegularFile)); [|done].
      by injection H2 as <-.
    - by injection H2 as <-. }
  apply part001_addWallet_Ok in H3 as (n & description & Hn & Hdir & _ & E3).
  apply part001_Switch_Ok in H4 as (E4 & Hkey & _).
  rewrite E3, E2 in Hkey. simpl in Hkey.
  assert (walletDirName ≠ currentWalletDirName) as Hname.
  { intros ->. rewrite lookup_insert_ne, Hdata in Hkey by done. by destruct Hkey. }
  rewrite E4, E3, E2, (Hdir Hname). simpl. eauto.
Qed.

(** * Further properties of the code *)

(** ** Discovery: [isWalletDir] and [getWallets] *)

Lemma run_isWalletDir (walletsDir walletDir : string) (w : World) :
  isWalletDir walletsDir walletDir w = (Ok (holdsWallet (disk w) walletDir), w).
Proof. done. Qed.

Lemma getWallets_for_filter (walletsDir : string) (walletEntries : list string) (w : World) :
  getWallets_for walletsDir walletEntries w
  = (Ok (filter (λ name, holdsWallet (disk w) name = true) walletEntries), w).
Proof.
  induction walletEntries as [|name rest IH]; [done|].
  cbn [getWallets_for]. rewrite run_bind, run_isWalletDir, run_bind, IH, run_ret.
  rewrite filter_cons. by destruct (holdsWallet (disk w) name).
Qed.

Lemma run_getWallets (walletsDir : string) (w : World) :
  getWallets walletsDir w
  = (Ok (filter (λ name, holdsWallet (disk w) name = true)
           (merge_sort string_le
              (filter (λ name, name ≠ "") (map fst (map_to_list (disk w)))))), w).
Proof.
  unfold getWallets. rewrite run_bind. unfold os_ReadDir, ReadDir.
  by rewrite getWallets_for_filter.
Qed.



Lemma holdsWallet_true (d : Disk) (name : string) :
  holdsWallet d name = true ↔
  name ≠ "" ∧ ∃ children, d !! name = Some (Dir children) ∧
                          children !! "salt" = Some RegularFile.
Proof.
  unfold holdsWallet. split.
  - destruct (Stat d name) as [[|children]|] eqn:E; try done.
    apply Stat_Some in E as [Hne Hd]. intros H%bool_decide_eq_true. eauto.
  - intros (Hne & children & Hd & Hsalt).
    assert (Stat d name = Some (Dir children)) as -> by by apply Stat_Some.
    by apply bool_decide_eq_true.
Qed.

Lemma holdsWallet_lookup (d d' : Disk) (name : string) :
  d' !! name = d !! name → holdsWallet d' name = holdsWallet d name.
Proof. unfold holdsWallet, Stat. by intros ->. Qed.

(** ** [Switch] *)

(** [Switch] in [Part001] with no wallet current and nothing at [data]: the
    directory of the wallet moves to [data]. *)
Lemma part001_Switch_first (c : Config) (d : Disk) (input : list string)
    (walletName : string) (nw : node) :
  CurrentWallet c = "" →
  is_Some (Wallets c !! walletName) →
  d !! currentWalletDirName = None →
  Stat d walletName = Some nw →
  Part001.Switch walletName (mkWorld c d input)
  = (Ok (), mkWorld (withCurrentWallet c walletName)
              (<[currentWalletDirName := nw]> (delete walletName d)) input).
Proof.
  intros Hcur [v Hv] Hslot Hw. pose proof Hw as [Hne _]%Stat_Some.
  unfold Part001.Switch.
  rewrite run_bind, run_gets. cbn [config]. rewrite Hcur.
  rewrite decide_False by done.
  rewrite run_bind, run_gets. cbn [config].
  rewrite (decide_False (P := Wallets c !! walletName = None)) by congruence.
  rewrite (decide_False (P := "" ≠ "")) by (intros ?; done).
  rewrite run_bind, run_ret, run_bind.
  unfold os_Rename. cbn [disk]. by rewrite (Rename_fresh _ _ _ nw).
Qed.




(** X7: A wallet is recorded as current but [data] is missing: the first
    rename of [Switch] fails, and unlike a missing directory of the target
    this is returned as the error. *)
Theorem part001_Switch_missing_slot (c : Config) (d : Disk) (input : list string)
    (walletName : string) :
  CurrentWallet c ≠ "" → CurrentWallet c ≠ walletName →
  is_Some (Wallets c !! walletName) →
  d !! currentWalletDirName = None →
  Part001.Switch walletName (mkWorld c d input)
  = (Err (IOError ENOENT), mkWorld c d input).
Proof.
  intros Hcur Hne [v Hv] Hslot. unfold Part001.Switch.
  rewrite run_bind, run_gets. cbn [config].
  rewrite decide_False by done.
  rewrite run_bind, run_gets. cbn [config].
  rewrite (decide_False (P := Wallets c !! walletName = None)) by congruence.
  rewrite decide_True by done.
  rewrite run_bind, run_bind. unfold os_Rename at 1. cbn [disk].
  by rewrite Rename_missing by done.
Qed.

Lemma part001_Switch_missing_slot_witness :
  Part001.Switch "b" (mkWorld (config (twoWallets [])) {[ "b" := walletDir ]} [])
  = (Err (IOError ENOENT), mkWorld (config (twoWallets [])) {[ "b" := walletDir ]} []).
Proof.
  apply part001_Switch_missing_slot;
    first [ discriminate | reflexivity | (vm_compute; eauto) ].
Defined.

Lemma layout_target (c : Config) (d : Disk) (walletName : string) :
  layout c d → is_Some (Wallets c !! walletName) → walletName ≠ CurrentWallet c →
  walletName ≠ "" ∧ walletName ≠ currentWalletDirName ∧
  ∃ children, d !! walletName = Some (Dir children) ∧
              children !! "salt" = Some RegularFile.
Proof.
  intros ((_ & _ & Hdata) & Hempty & Hdirs & _) Hkey Hne.
  apply Hdirs in Hne as [Hne Hdir]%holdsWallet_true; [|done].
  split; [done|]. split; [|done].
  intros ->. rewrite Hdata in Hkey. by destruct Hkey.
Qed.

Lemma part001_Switch_layout (c : Config) (d : Disk) (input : list string)
    (walletName : string) :
  layout c d →
  is_Some (Wallets c !! walletName) → walletName ≠ CurrentWallet c →
  ∃ d', Part001.Switch walletName (mkWorld c d input)
        = (Ok (), mkWorld (withCurrentWallet c walletName) d' input) ∧
        layout (withCurrentWallet c walletName) d' ∧
        ∀ name, name ≠ currentWalletDirName → name ≠ walletName →
                name ≠ CurrentWallet c → d' !! name = d !! name.
Proof.
  intros Hlay Hkey Hne.
  destruct (layout_target c d walletName) as (Hname & Hnd & ch & Hdir & Hsalt); [done..|].
  destruct Hlay as (Hinv & Hempty & Hdirs & Hslot & Hnone).
  pose proof Hinv as (_ & Hcd & Hdata).
  assert (Stat d walletName = Some (Dir ch)) as Hstat by by apply Stat_Some.
  assert (∀ d', d' !! currentWalletDirName = Some (Dir ch) → d' !! walletName = None →
    (∀ name, is_Some (Wallets c !! name) → name ≠ walletName →
             holdsWallet d' name = true) →
    layout (withCurrentWallet c walletName) d') as Hfit.
  { intros d' H1 H2 H3. split; [by apply invariant_Switch|]. split; [done|].
    split; [done|]. split; [|done]. intros _. split; [|done].
    apply holdsWallet_true. split; [done|]. eauto. }
  destruct (decide (CurrentWallet c = "")) as [Hcur|Hcur].
  - eexists. split.
    { apply part001_Switch_first; [done|done| |done]. by apply Hnone. }
    split.
    2:{ intros name H1 H2 _. by rewrite lookup_insert_ne, lookup_delete_ne. }
    apply Hfit.
    + by rewrite lookup_insert_eq.
    + by rewrite lookup_insert_ne, lookup_delete_eq.
    + intros name Hk Hn.
      assert (name ≠ currentWalletDirName).
      { intros ->. rewrite Hdata in Hk. by destruct Hk. }
      rewrite (holdsWallet_lookup d).
      * apply Hdirs; [done|]. rewrite Hcur. intros ->. rewrite Hempty in Hk. by destruct Hk.
      * by rewrite lookup_insert_ne, lookup_delete_ne.
  - destruct (Hslot Hcur) as [(_ & chd & Hd & Hsd)%holdsWallet_true Hfree].
    eexists. split.
    { by apply (part001_Switch_renames c d input walletName (Dir chd) (Dir ch)). }
    split.
    2:{ intros name H1 H2 H3.
        by rewrite lookup_insert_ne, lookup_delete_ne, lookup_insert_ne, lookup_delete_ne. }
    apply Hfit.
    + by rewrite lookup_insert_eq.
    + by rewrite lookup_insert_ne, lookup_delete_eq.
    + intros name Hk Hn.
      assert (name ≠ currentWalletDirName).
      { intros ->. rewrite Hdata in Hk. by destruct Hk. }
      destruct (decide (name = CurrentWallet c)) as [->|Hnc].
      * apply holdsWallet_true. split; [done|]. exists chd. split; [|done].
        by rewrite lookup_insert_ne, lookup_delete_ne, lookup_insert_eq.
      * rewrite (holdsWallet_lookup d); [by apply Hdirs|].
        rewrite lookup_insert_ne, lookup_delete_ne, lookup_insert_ne, lookup_delete_ne; done.
Qed.

(** X8: On a fitting configuration and directory [Switch] to any other wallet
    of the map returns nil; that wallet is current, the map and the input are
    untouched, and configuration and directory fit again. *)
Theorem part001_Switch_keeps_layout (w : World) (walletName : string) :
  layout (config w) (disk w) →
  is_Some (Wallets (config w) !! walletName) →
  walletName ≠ CurrentWallet (config w) →
  ∃ w', Part001.Switch walletName w = (Ok (), w') ∧
        layout (config w') (disk w') ∧
        CurrentWallet (config w') = walletName ∧
        Wallets (config w') = Wallets (config w) ∧
        stdin w' = stdin w.
Proof.
  destruct w as [c d input]. simpl. intros Hlay Hkey Hne.
  destruct (part001_Switch_layout c d input walletName) as (d' & Hrun & Hlay' & _);
    [done..|].
  eexists. split; [exact Hrun|]. by simpl.
Qed.

Lemma Rename_frame (oldname newname : string) (d d' : Disk) (name : string) :
  Rename oldname newname d = inr d' → name ≠ oldname → name ≠ newname →
  d' !! name = d !! name.
Proof.
  unfold Rename. intros H Ho Hn.
  assert (d' = <[newname := default File (Stat d oldname)]> (delete oldname d)) as ->.
  { destruct (Stat d oldname) as [n|]; [|done].
    destruct (decide (newname = "")); [done|].
    destruct (d !! newname) as [[|ch]|]; [destruct n| |]; by simplify_eq. }
  by rewrite lookup_insert_ne, lookup_delete_ne.
Qed.

Lemma os_Rename_frame (oldname newname : string) (w w' : World)
    (r : result (option errno)) (name : string) :
  os_Rename oldname newname w = (r, w') → name ≠ oldname → name ≠ newname →
  stdin w' = stdin w ∧ disk w' !! name = disk w !! name.
Proof.
  unfold os_Rename. destruct (Rename oldname newname (disk w)) as [e|d'] eqn:E.
  - by intros [= _ <-].
  - intros [= _ <-] Ho Hn. split; [done|]. by apply (Rename_frame oldname newname).
Qed.

(** X9: Whatever [Switch] returns, in either revision, it has read no input
    and has left every entry of the root alone except [data], the name of the
    current wallet and the name it was called with. *)
Theorem Switch_touches_three_names (walletName : string) (w w' : World)
    (r : result unit) (name : string) :
  Part001.Switch walletName w = (r, w') ∨ MainGo.Switch walletName w = (r, w') →
  name ≠ currentWalletDirName → name ≠ walletName →
  name ≠ CurrentWallet (config w) →
  stdin w' = stdin w ∧ disk w' !! name = disk w !! name.
Proof.
  intros H Hd Hw Hc.
  assert (∀ current, name ≠ current →
    ((if decide (current ≠ "")
      then err ← os_Rename currentWalletDirName current;
           match err with Some e => fail (IOError e) | None => mret () end
      else mret ());;
     err ← os_Rename walletName currentWalletDirName;
     match err with
     | Some e => if decide (e ≠ ENOENT) then fail (IOError e)
                 else setCurrentWallet walletName
     | None => setCurrentWallet walletName
     end) w = (r, w') →
    stdin w' = stdin w ∧ disk w' !! name = disk w !! name) as Hrenames.
  { intros current Hcur. rewrite run_bind.
    assert (∀ w1, stdin w1 = stdin w → disk w1 !! name = disk w !! name →
      (err ← os_Rename walletName currentWalletDirName;
       match err with
       | Some e => if decide (e ≠ ENOENT) then fail (IOError e)
                   else setCurrentWallet walletName
       | None => setCurrentWallet walletName
       end) w1 = (r, w') →
      stdin w' = stdin w ∧ disk w' !! name = disk w !! name) as Hsecond.
    { intros w1 E1 E2. rewrite run_bind.
      destruct (os_Rename walletName currentWalletDirName w1) as [[err| |] w2] eqn:Hr;
        try (unfold os_Rename in Hr;
             by destruct (Rename walletName currentWalletDirName (disk w1))).
      apply (os_Rename_frame _ _ _ _ _ name) in Hr as [E3 E4]; [|done..].
      intros Hm.
      assert (stdin w' = stdin w2 ∧ disk w' = disk w2) as [-> ->].
      { destruct err as [e|]; [destruct (decide (e ≠ ENOENT))|]; by injection Hm as _ <-. }
      split; congruence. }
    destruct (decide (current ≠ "")).
    - rewrite run_bind.
      destruct (os_Rename currentWalletDirName current w) as [[err| |] w1] eqn:Hr;
        try (unfold os_Rename in Hr;
             by destruct (Rename currentWalletDirName current (disk w))).
      apply (os_Rename_frame _ _ _ _ _ name) in Hr as [E1 E2]; [|done..].
      destruct err as [e|].
      + by intros [= _ <-].
      + rewrite run_ret. by apply Hsecond.
    - rewrite run_ret. by apply Hsecond. }
  destruct H as [H|H].
  - unfold Part001.Switch in H. rewrite run_bind, run_gets in H.
    destruct (decide (CurrentWallet (config w) = walletName)); [by injection H as _ <-|].
    rewrite run_bind, run_gets in H.
    destruct (decide (Wallets (config w) !! walletName = None)); [by injection H as _ <-|].
    by apply (Hrenames (CurrentWallet (config w))).
  - unfold MainGo.Switch in H. rewrite run_bind, run_gets in H.
    destruct (decide (CurrentWallet (config w) = walletName)); [by injection H as _ <-|].
    by apply (Hrenames (CurrentWallet (config w))).
Qed.

(** ** [Edit] *)

Lemma scanWalletName_for_result (default : string) (w w' : World) (r : result string) :
  scanWalletName_for default w = (r, w') →
  config w' = config w ∧ disk w' = disk w ∧ ∀ e, r ≠ Err e.
Proof.
  unfold scanWalletName_for.
  destruct (scanWalletName default (stdin w)) as [[n rest]|]; by intros [= <- <-].
Qed.

Lemma scanLine_result (w w' : World) (r : result string) :
  scanLine w = (r, w') →
  config w' = config w ∧ disk w' = disk w ∧ ∀ e, r ≠ Err e.
Proof. unfold scanLine. destruct (stdin w); by intros [= <- <-]. Qed.

(** X10: When [Edit] returns an error, in either revision, the configuration
    and the directory are as they were: the only rename comes before every
    change of the map, and a refused rename moves nothing. *)
Theorem Edit_error_changes_nothing (walletName : string) (w w' : World) (e : error) :
  Part001.Edit walletName w = (Err e, w') ∨ MainGo.Edit walletName w = (Err e, w') →
  config w' = config w ∧ disk w' = disk w.
Proof.
  assert (∀ wallets : gmap string string,
    (newWalletName ← scanWalletName_for walletName;
     line ← scanLine;
     let newWalletDescription :=
       if decide (line = "") then index wallets walletName else line in
     current ← gets CurrentWallet;
     (if decide (current = walletName) then setCurrentWallet newWalletName
      else if decide (newWalletName ≠ walletName)
      then err ← os_Rename walletName newWalletName;
           match err with Some e => fail (IOError e) | None => mret () end
      else mret ());;
     putWallet newWalletName newWalletDescription;;
     if decide (walletName ≠ newWalletName) then deleteWallet walletName else mret ()) w
    = (Err e, w') → config w' = config w ∧ disk w' = disk w) as Hbody.
  { intros wallets. rewrite run_bind.
    destruct (scanWalletName_for walletName w) as [[n|e1|] w1] eqn:H1; [| |done].
    2:{ apply scanWalletName_for_result in H1 as (_ & _ & H1). by destruct (H1 e1). }
    apply scanWalletName_for_result in H1 as (Ec1 & Ed1 & _).
    rewrite run_bind.
    destruct (scanLine w1) as [[line|e2|] w2] eqn:H2; [| |done].
    2:{ apply scanLine_result in H2 as (_ & _ & H2). by destruct (H2 e2). }
    apply scanLine_result in H2 as (Ec2 & Ed2 & _).
    cbv zeta. rewrite run_bind, run_gets, run_bind.
    destruct (decide (CurrentWallet (config w2) = walletName)).
    { rewrite run_setCurrentWallet, run_bind, run_putWallet.
      by destruct (decide (walletName ≠ n)). }
    destruct (decide (n ≠ walletName)).
    - rewrite run_bind. unfold os_Rename.
      destruct (Rename walletName n (disk w2)) as [e3|d3].
      + intros [= _ <-]. split; congruence.
      + cbn -[Rename]. by destruct (decide (walletName ≠ n)).
    - rewrite run_ret, run_bind, run_putWallet.
      by destruct (decide (walletName ≠ n)). }
  intros [H|H].
  - unfold Part001.Edit in H. rewrite run_bind, run_gets in H.
    destruct (decide (Wallets (config w) !! walletName = None)); [by injection H as _ <-|].
    by apply (Hbody (Wallets (config w))).
  - unfold MainGo.Edit in H. rewrite run_bind, run_gets in H.
    destruct (decide (index (Wallets (config w)) walletName = ""));
      [by injection H as _ <-|].
    by apply (Hbody (Wallets (config w))).
Qed.

Lemma Edit_error_changes_nothing_witness :
  config (strayWallets []) = config (strayWallets ["a"; "text"]) ∧
  disk (strayWallets []) = disk (strayWallets ["a"; "text"]).
Proof.
  apply (Edit_error_changes_nothing "b" (strayWallets ["a"; "text"]) _ (IOError ENOENT)).
  left. by vm_compute.
Defined.

(** X11: [Edit] of the current wallet under a new name: the key and the
    current wallet change, the directory is not touched (the wallet is at
    [data]). *)
Theorem part001_Edit_current_wallet (c : Config) (d : Disk)
    (walletName newWalletName description : string) (rest : list string) :
  CurrentWallet c = walletName → is_Some (Wallets c !! walletName) →
  newWalletName ≠ walletName → newWalletName ≠ "" →
  newWalletName ≠ currentWalletDirName → description ≠ "" →
  Part001.Edit walletName (mkWorld c d (newWalletName :: description :: rest))
  = (Ok (), mkWorld (withWallets (withCurrentWallet c newWalletName)
                       (delete walletName (<[newWalletName := description]> (Wallets c))))
              d rest).
Proof.
  intros Hcur [v Hv] Hne Hempty Hdata Hdesc.
  unfold Part001.Edit. rewrite run_bind, run_gets. cbn [config].
  rewrite decide_False by congruence.
  rewrite run_bind. unfold scanWalletName_for. cbn [stdin config disk].
  rewrite scanWalletName_line by done.
  rewrite run_bind. unfold scanLine. cbn [stdin config disk]. cbv zeta.
  rewrite run_bind, run_gets, run_bind. cbn [config].
  rewrite (decide_True (P := CurrentWallet c = walletName)) by done.
  rewrite run_setCurrentWallet, run_bind, run_putWallet. cbn [config disk stdin].
  rewrite (decide_True (P := walletName ≠ newWalletName)) by done.
  rewrite run_deleteWallet. cbn.
  by rewrite (decide_False (P := description = "")) by done.
Qed.

Lemma part001_Edit_current_wallet_witness :
  Part001.Edit "a" (mkWorld (config (twoWallets [])) (disk (twoWallets [])) ["c"; "third"])
  = (Ok (), mkWorld (withWallets (withCurrentWallet (config (twoWallets [])) "c")
                       (delete "a" (<["c" := "third"]> (Wallets (config (twoWallets []))))))
              (disk (twoWallets [])) []).
Proof.
  apply part001_Edit_current_wallet;
    first [ discriminate | reflexivity | (vm_compute; eauto) ].
Defined.

(** [Edit] answered with a new name and any second line, step by step. *)
Lemma part001_Edit_new_name (c : Config) (d : Disk)
    (walletName newWalletName line : string) (rest : list string) :
  is_Some (Wallets c !! walletName) →
  newWalletName ≠ walletName → newWalletName ≠ "" →
  newWalletName ≠ currentWalletDirName →
  Part001.Edit walletName (mkWorld c d (newWalletName :: line :: rest))
  = let wallets :=
      delete walletName
        (<[newWalletName := if decide (line = "") then index (Wallets c) walletName
                            else line]> (Wallets c)) in
    if decide (CurrentWallet c = walletName)
    then (Ok (), mkWorld (withWallets (withCurrentWallet c newWalletName) wallets) d rest)
    else match Rename walletName newWalletName d with
         | inl e => (Err (IOError e), mkWorld c d rest)
         | inr d' => (Ok (), mkWorld (withWallets c wallets) d' rest)
         end.
Proof.
  intros [v Hv] Hne Hempty Hdata.
  unfold Part001.Edit. rewrite run_bind, run_gets. cbn [config].
  rewrite decide_False by congruence.
  rewrite run_bind. unfold scanWalletName_for. cbn [stdin config disk].
  rewrite scanWalletName_line by done.
  rewrite run_bind. unfold scanLine. cbn [stdin config disk]. cbv zeta.
  rewrite run_bind, run_gets, run_bind. cbn [config].
  destruct (decide (CurrentWallet c = walletName)).
  - rewrite run_setCurrentWallet, run_bind, run_putWallet. cbn [config disk stdin].
    rewrite (decide_True (P := walletName ≠ newWalletName)) by done.
    by rewrite run_deleteWallet.
  - rewrite (decide_True (P := newWalletName ≠ walletName)) by done.
    rewrite run_bind. unfold os_Rename. cbn [disk].
    destruct (Rename walletName newWalletName d) as [e|d']; [done|].
    rewrite run_ret, run_bind, run_putWallet. cbn [config disk stdin].
    rewrite (decide_True (P := walletName ≠ newWalletName)) by done.
    by rewrite run_deleteWallet.
Qed.

(** X12: On a fitting configuration and directory, [Edit] of any wallet of the
    map under a name that is new (not empty, not [data], not a key, nothing of
    that name on disk) returns nil, and configuration and directory fit again:
    for a wallet that is not current its directory has moved to the new name. *)
Theorem part001_Edit_keeps_layout (c : Config) (d : Disk)
    (walletName newWalletName line : string) (rest : list string) :
  layout c d → is_Some (Wallets c !! walletName) →
  newWalletName ≠ "" → newWalletName ≠ currentWalletDirName →
  Wallets c !! newWalletName = None → d !! newWalletName = None →
  ∃ c' d',
    Part001.Edit walletName (mkWorld c d (newWalletName :: line :: rest))
    = (Ok (), mkWorld c' d' rest) ∧
    layout c' d' ∧
    Wallets c' = delete walletName
                   (<[newWalletName := if decide (line = "")
                                       then index (Wallets c) walletName else line]>
                      (Wallets c)) ∧
    (walletName ≠ CurrentWallet c → holdsWallet d' newWalletName = true).
Proof.
  intros Hlay Hkey Hempty Hdata Hfresh Hfree.
  assert (newWalletName ≠ walletName) as Hne.
  { intros ->. rewrite Hfresh in Hkey. by destruct Hkey. }
  assert (walletName ≠ "" ∧ walletName ≠ currentWalletDirName) as [Hw1 Hw2].
  { destruct Hlay as ((_ & _ & Hd) & He & _).
    split; intros ->; [rewrite He in Hkey|rewrite Hd in Hkey]; by destruct Hkey. }
  rewrite part001_Edit_new_name by done. cbv zeta.
  set (description := if decide (line = "") then index (Wallets c) walletName else line).
  assert (∀ name, is_Some (delete walletName (<[newWalletName := description]> (Wallets c)) !! name) →
                  name ≠ newWalletName →
                  is_Some (Wallets c !! name) ∧ name ≠ walletName) as Hold.
  { intros name Hin Hn. rewrite lookup_delete in Hin.
    destruct (decide (walletName = name)) as [->|?]; [by destruct Hin|].
    rewrite lookup_insert_ne in Hin by done. done. }
  destruct (decide (CurrentWallet c = walletName)) as [Hcur|Hcur].
  - eexists _, _. split; [done|]. split; [|split; [done|congruence]].
    destruct Hlay as ((_ & _ & Hd) & He & Hdirs & Hslot & Hnone).
    split; [|split; [|split; [|split]]]; simpl.
    + split; [|split]; simpl.
      * right. rewrite lookup_delete_ne, lookup_insert_eq; done.
      * done.
      * rewrite lookup_delete_ne, lookup_insert_ne; done.
    + rewrite lookup_delete_ne, lookup_insert_ne; done.
    + intros name Hin Hn. apply Hold in Hin as [Hin Hnw]; [|done].
      apply Hdirs; [done|congruence].
    + intros _. split; [|done]. apply Hslot. congruence.
    + done.
  - destruct (layout_target c d walletName) as (_ & _ & ch & Hdir & Hsalt); [done..|].
    rewrite (Rename_fresh _ _ _ (Dir ch)); [|by apply Stat_Some|done|done].
    eexists _, _. split; [done|]. split; [|split; [done|]].
    2:{ intros _. apply holdsWallet_true. split; [done|]. exists ch.
        by rewrite lookup_insert_eq. }
    destruct Hlay as ((Hc & Hcd & Hd) & He & Hdirs & Hslot & Hnone).
    assert (newWalletName ≠ CurrentWallet c) as Hnc.
    { intros ->. destruct Hc as [Hc|Hc]; [done|]. rewrite Hfresh in Hc. by destruct Hc. }
    split; [|split; [|split; [|split]]]; simpl.
    + split; [|split]; simpl.
      * destruct Hc as [?|Hc]; [by left|right].
        rewrite lookup_delete_ne, lookup_insert_ne; done.
      * done.
      * rewrite lookup_delete_ne, lookup_insert_ne; done.
    + rewrite lookup_delete_ne, lookup_insert_ne; done.
    + intros name Hin Hn.
      destruct (decide (name = newWalletName)) as [->|Hnn].
      * apply holdsWallet_true. split; [done|]. exists ch. by rewrite lookup_insert_eq.
      * apply Hold in Hin as [Hin Hnw]; [|done].
        rewrite (holdsWallet_lookup d); [by apply Hdirs|].
        by rewrite lookup_insert_ne, lookup_delete_ne.
    + intros Hcne. destruct (Hslot Hcne) as [Hs Hf]. split.
      * rewrite (holdsWallet_lookup d); [done|].
        by rewrite lookup_insert_ne, lookup_delete_ne.
      * rewrite lookup_insert_ne by done. rewrite lookup_delete. by case_decide.
    + intros Hce. rewrite lookup_insert_ne, lookup_delete_ne by done. by apply Hnone.
Qed.

(** X13: On a fitting configuration and directory, [Edit] of a wallet that is
    not current, answered with the name of the current wallet, returns nil:
    the directory of the edited wallet now sits under the name of the current
    wallet, whose entry it has taken over. From then on every [Switch] to
    another wallet fails, because the first rename finds that name occupied. *)
Theorem part001_Edit_onto_current_wallet (c : Config) (d : Disk)
    (walletName line : string) (rest : list string) :
  layout c d → is_Some (Wallets c !! walletName) →
  walletName ≠ CurrentWallet c → CurrentWallet c ≠ "" →
  ∃ c' d',
    Part001.Edit walletName (mkWorld c d (CurrentWallet c :: line :: rest))
    = (Ok (), mkWorld c' d' rest) ∧
    CurrentWallet c' = CurrentWallet c ∧
    Wallets c' !! walletName = None ∧
    holdsWallet d' (CurrentWallet c) = true ∧
    ∀ other input,
      other ≠ CurrentWallet c → is_Some (Wallets c' !! other) →
      Part001.Switch other (mkWorld c' d' input)
      = (Err (IOError EEXIST), mkWorld c' d' input).
Proof.
  intros Hlay Hkey Hne Hcur.
  destruct (layout_target c d walletName) as (Hw1 & Hw2 & ch & Hdir & Hsalt); [done..|].
  destruct Hlay as ((_ & Hcd & _) & _ & _ & Hslot & _).
  destruct (Hslot Hcur) as [(_ & chd & Hd & Hsd)%holdsWallet_true Hfree].
  rewrite part001_Edit_new_name by done. cbv zeta.
  rewrite decide_False by done.
  rewrite (Rename_fresh _ _ _ (Dir ch)); [|by apply Stat_Some|done|done].
  eexists _, _. split; [done|]. split; [done|]. split; [|split].
  - simpl. by rewrite lookup_delete_eq.
  - apply holdsWallet_true. split; [done|]. exists ch. by rewrite lookup_insert_eq.
  - intros other input Ho [v Hv]. unfold Part001.Switch.
    rewrite run_bind, run_gets. cbn [config CurrentWallet withWallets].
    rewrite decide_False by done.
    rewrite run_bind, run_gets. cbn [config Wallets withWallets].
    rewrite decide_False by (simpl in Hv; congruence).
    rewrite decide_True by done.
    rewrite run_bind, run_bind. unfold os_Rename at 1. cbn [disk].
    unfold Rename, Stat.
    rewrite (decide_False (P := currentWalletDirName = "")) by done.
    rewrite lookup_insert_ne, lookup_delete_ne, Hd by done.
    rewrite decide_False by done.
    by rewrite lookup_insert_eq.
Qed.

(** ** [Forget] and [Remove] *)

Lemma layout_forget_other (c : Config) (d : Disk) (walletName : string) :
  layout c d → walletName ≠ CurrentWallet c →
  layout (withWallets c (delete walletName (Wallets c))) d.
Proof.
  intros (Hinv & He & Hdirs & Hslot & Hnone) Hne.
  split; [by apply invariant_delete|]. split; [|split; [|done]]; simpl.
  - rewrite lookup_delete. by case_decide.
  - intros name Hin Hn. apply Hdirs; [|done].
    rewrite lookup_delete in Hin. case_decide; [by destruct Hin|done].
Qed.

Lemma part001_Forget_layout (order : MapOrder) (c : Config) (d : Disk)
    (input : list string) (walletName : string) :
  layout c d → is_Some (Wallets c !! walletName) →
  ∃ c' d',
    Part001.Forget order walletName (mkWorld c d input) = (Ok (), mkWorld c' d' input) ∧
    layout c' d' ∧
    Wallets c' = delete walletName (Wallets c) ∧
    holdsWallet d' walletName = true ∧
    (walletName ≠ CurrentWallet c → CurrentWallet c' = CurrentWallet c ∧ d' = d).
Proof.
  intros Hlay [v Hv].
  unfold Part001.Forget. rewrite run_bind, run_gets. cbn [config].
  rewrite decide_False by congruence.
  rewrite run_bind, run_gets. cbn [config].
  destruct (decide (CurrentWallet c = walletName)) as [Hcur|Hcur].
  - pose proof Hlay as ((_ & Hcd & Hdata) & He & Hdirs & Hslot & Hnone).
    assert (walletName ≠ "") as Hname by (intros ->; congruence).
    assert (walletName ≠ currentWalletDirName) as Hnd by congruence.
    destruct Hslot as [(_ & chd & Hd & Hsd)%holdsWallet_true Hfree]; [congruence|].
    rewrite run_bind. unfold os_Rename. cbn [disk].
    rewrite (Rename_fresh _ _ _ (Dir chd)) by (done || congruence).
    rewrite run_bind, run_deleteWallet, run_bind, run_setCurrentWallet.
    cbn [config disk stdin].
    set (c1 := withCurrentWallet (withWallets c (delete walletName (Wallets c))) "").
    set (d1 := <[walletName := Dir chd]> (delete currentWalletDirName d)).
    assert (holdsWallet d1 walletName = true) as Hback.
    { apply holdsWallet_true. split; [done|]. exists chd. unfold d1.
      by rewrite lookup_insert_eq. }
    assert (layout c1 d1) as Hlay1.
    { split; [apply invariant_forget, Hlay|]. split; [|split; [|split]]; simpl.
      - rewrite lookup_delete. by case_decide.
      - intros name Hin Hn. rewrite lookup_delete in Hin.
        case_decide as Hnw; [by destruct Hin|].
        assert (name ≠ currentWalletDirName).
        { intros ->. rewrite Hdata in Hin. by destruct Hin. }
        rewrite (holdsWallet_lookup d); [apply Hdirs; [done|congruence]|].
        unfold d1. by rewrite lookup_insert_ne, lookup_delete_ne.
      - done.
      - intros _. unfold d1. by rewrite lookup_insert_ne, lookup_delete_eq. }
    unfold Part001.switchToFirstWallet. rewrite run_bind, run_gets. cbn [config].
    destruct (first_key order (Wallets c1)) as [k|] eqn:Hfirst.
    + pose proof (first_key_Some _ _ _ Hfirst) as Hk.
      assert (k ≠ "") as Hk0.
      { intros ->. destruct Hlay1 as (_ & He1 & _). rewrite He1 in Hk. by destruct Hk. }
      destruct (part001_Switch_layout c1 d1 input k) as (d' & Hrun & Hlay' & Hframe);
        [done..|].
      exists (withCurrentWallet c1 k), d'. split; [done|]. split; [done|].
      split; [done|]. split; [|congruence].
      assert (k ≠ walletName) as Hkw.
      { intros ->. simpl in Hk. rewrite lookup_delete_eq in Hk. by destruct Hk. }
      rewrite (holdsWallet_lookup d1); [done|]. by apply Hframe.
    + exists c1, d1. split; [done|]. split; [done|]. split; [done|]. split; [done|congruence].
  - rewrite run_deleteWallet. cbn [config disk stdin].
    exists (withWallets c (delete walletName (Wallets c))), d.
    split; [done|]. split; [by apply layout_forget_other|]. split; [done|].
    split; [|done].
    destruct Hlay as (_ & _ & Hdirs & _). apply Hdirs; [by eexists|congruence].
Qed.

(** X17: On a fitting configuration and directory [Forget] of any wallet of
    the map returns nil without reading input; the map has lost exactly that
    key, configuration and directory fit again, and the directory of the
    forgotten wallet is on disk under its own name (moved there from [data]
    when the wallet was current; for any other wallet neither the current
    wallet nor the directory changes). *)
Theorem part001_Forget_keeps_layout (order : MapOrder) (w : World) (walletName : string) :
  layout (config w) (disk w) →
  is_Some (Wallets (config w) !! walletName) →
  ∃ w', Part001.Forget order walletName w = (Ok (), w') ∧
        stdin w' = stdin w ∧
        layout (config w') (disk w') ∧
        Wallets (config w') = delete walletName (Wallets (config w)) ∧
        holdsWallet (disk w') walletName = true ∧
        (walletName ≠ CurrentWallet (config w) →
         CurrentWallet (config w') = CurrentWallet (config w) ∧ disk w' = disk w).
Proof.
  destruct w as [c d input]. simpl. intros Hlay Hkey.
  destruct (part001_Forget_layout order c d input walletName)
    as (c' & d' & Hrun & Hlay' & Hmap & Hdir & Hother); [done..|].
  eexists. split; [exact Hrun|]. by simpl.
Qed.

(** X18: On a fitting configuration and directory [Remove] confirmed with
    [yes] returns nil; the wallet is no key of the map any more, nothing is
    left on disk under its name, and configuration and directory fit. *)
Theorem part001_Remove_keeps_layout (order : MapOrder) (c : Config) (d : Disk)
    (rest : list string) (walletName : string) :
  layout c d → is_Some (Wallets c !! walletName) →
  ∃ c' d',
    Part001.Remove order walletName (mkWorld c d ("yes" :: rest))
    = (Ok (), mkWorld c' d' rest) ∧
    layout c' d' ∧
    Wallets c' = delete walletName (Wallets c) ∧
    d' !! walletName = None.
Proof.
  intros Hlay Hkey.
  destruct (part001_Forget_layout order c d rest walletName)
    as (c' & d1 & Hrun & Hlay' & Hmap & _ & _); [done..|].
  assert (walletName ≠ currentWalletDirName) as Hnd.
  { destruct Hlay as ((_ & _ & Hdata) & _). intros ->. rewrite Hdata in Hkey.
    by destruct Hkey. }
  exists c', (delete walletName d1). split; [|split; [|split; [done|]]].
  - destruct Hkey as [v Hv]. unfold Part001.Remove.
    rewrite run_bind, run_gets. cbn [config].
    rewrite decide_False by congruence.
    rewrite run_bind. unfold scanLine. cbn [stdin config disk].
    rewrite decide_True by done.
    by rewrite run_bind, Hrun.
  - destruct Hlay' as (Hinv & He & Hdirs & Hslot & Hnone).
    split; [done|]. split; [done|]. split; [|split].
    + intros name Hin Hn. rewrite (holdsWallet_lookup d1); [by apply Hdirs|].
      apply lookup_delete_ne. intros ->. rewrite Hmap, lookup_delete_eq in Hin.
      by destruct Hin.
    + intros Hcur. destruct (Hslot Hcur) as [Hs Hf]. split.
      * rewrite (holdsWallet_lookup d1); [done|]. by apply lookup_delete_ne.
      * rewrite lookup_delete. by case_decide.
    + intros Hcur. rewrite lookup_delete. case_decide; [done|]. by apply Hnone.
  - by rewrite lookup_delete_eq.
Qed.

(** ** [Add] *)

(** X14: [Add] of a name that exists on disk without being a wallet directory
    returns an error in either revision, before anything is asked or changed:
    [NotADirectory] for a regular file, [NotAWalletDirectory] for a directory
    without a regular file [salt]. *)
Theorem Add_refuses_other_entries (walletDirName : string) (w : World) (n : node) :
  Stat (disk w) walletDirName = Some n →
  holdsWallet (disk w) walletDirName = false →
  let e := match n with
           | File => NotADirectory walletDirName
           | Dir _ => NotAWalletDirectory walletDirName
           end in
  Part001.Add walletDirName w = (Err e, w) ∧ MainGo.Add walletDirName w = (Err e, w).
Proof.
  intros Hstat Hno. unfold Part001.Add, MainGo.Add.
  rewrite !run_bind, !run_os_Stat, Hstat. simpl.
  destruct n as [|children]; rewrite !run_bind; [done|].
  rewrite !run_gets, !run_bind, !run_isWalletDir, Hno. done.
Qed.

Lemma Add_refuses_other_entries_witness :
  let w := mkWorld (mkConfig "cfg" "/w" "" ∅) {[ "notes" := Dir ∅ ]} ["text"] in
  Part001.Add "notes" w = (Err (NotAWalletDirectory "notes"), w) ∧
  MainGo.Add "notes" w = (Err (NotAWalletDirectory "notes"), w).
Proof.
  apply (Add_refuses_other_entries "notes" _ (Dir ∅)); by vm_compute.
Defined.

(** X15: On a fitting configuration and directory [Add] of a wallet directory
    with a name other than [data] takes one line (the description) and returns
    nil; the wallet is in the map under the name of its directory with that
    description, it is the current wallet, and configuration and directory fit
    again. *)
Theorem part001_Add_keeps_layout (c : Config) (d : Disk)
    (walletDirName description : string) (rest : list string) :
  layout c d → holdsWallet d walletDirName = true →
  walletDirName ≠ currentWalletDirName →
  let c' := withCurrentWallet
              (withWallets c (<[walletDirName := description]> (Wallets c)))
              walletDirName in
  ∃ d', Part001.Add walletDirName (mkWorld c d (description :: rest))
        = (Ok (), mkWorld c' d' rest) ∧
        layout c' d'.
Proof.
  intros Hlay Hwallet Hnd c'.
  pose proof Hwallet as (Hne & ch & Hdir & Hsalt)%holdsWallet_true.
  set (c1 := withWallets c (<[walletDirName := description]> (Wallets c))).
  assert (walletDirName ≠ CurrentWallet c) as Hcur.
  { destruct Hlay as (_ & _ & _ & Hslot & _). intros E.
    destruct Hslot as [_ Hfree]; congruence. }
  assert (layout c1 d) as Hlay1.
  { destruct Hlay as ((Hc & Hcd & Hdata) & He & Hdirs & Hslot & Hnone).
    split; [|split; [|split; [|done]]]; simpl.
    - split; [|split]; simpl; [|done|by rewrite lookup_insert_ne].
      destruct Hc as [?|Hc]; [by left|right]. by rewrite lookup_insert_ne.
    - by rewrite lookup_insert_ne.
    - intros name Hin Hn. destruct (decide (name = walletDirName)) as [->|Hnw]; [done|].
      rewrite lookup_insert_ne in Hin by done. by apply Hdirs. }
  destruct (part001_Switch_layout c1 d rest walletDirName) as (d' & Hrun & Hlay' & _);
    [done| |done|].
  { simpl. by rewrite lookup_insert_eq. }
  exists d'. split; [|done].
  unfold Part001.Add. rewrite run_bind, run_os_Stat. cbn [disk config stdin].
  assert (Stat d walletDirName = Some (Dir ch)) as -> by by apply Stat_Some.
  rewrite run_bind, run_bind, run_gets, run_bind, run_isWalletDir. cbn [disk config].
  rewrite Hwallet, run_ret, run_bind.
  by rewrite part001_addWallet_named by done.
Qed.

(** ** [Init] *)

(** X2: [Init] starts from scratch in either revision: the wallets and the
    current wallet of the configuration it is given do not matter, only the
    directory and the answers do. *)
Theorem Init_ignores_old_wallets (order : MapOrder) (c : Config) (d : Disk)
    (input : list string) :
  let fresh := mkConfig (configFilePath c) (WalletsDir c) "" ∅ in
  Part001.Init order (mkWorld c d input) = Part001.Init order (mkWorld fresh d input) ∧
  MainGo.Init order (mkWorld c d input) = MainGo.Init order (mkWorld fresh d input).
Proof.
  intros fresh. unfold Part001.Init, MainGo.Init.
  rewrite !run_bind, !run_gets. cbn [config fresh WalletsDir].
  by rewrite !run_bind, !run_getWallets.
Qed.

Lemma scanWalletName_nonempty default lines walletName rest :
  default ≠ "" → scanWalletName default lines = Some (walletName, rest) →
  walletName ≠ "".
Proof.
  intros Hd. induction lines as [|line lines IH]; simpl; [done|].
  destruct (decide (line = "")) as [->|Hl].
  - case_decide; [|done]. by intros [= <- _].
  - case_decide; [|done]. by intros [= <- _].
Qed.

(** [addWallet] as [Init] calls it: the directory [data] gives a current
    wallet with a name that is not empty, any other directory leaves the
    current wallet alone; the directory is not touched. *)
Lemma part001_addWallet_current (walletDirName : string) (w w' : World) :
  Part001.addWallet walletDirName true w = (Ok (), w') →
  disk w' = disk w ∧
  (walletDirName = currentWalletDirName → CurrentWallet (config w') ≠ "") ∧
  (walletDirName ≠ currentWalletDirName →
   CurrentWallet (config w') = CurrentWallet (config w)).
Proof.
  unfold Part001.addWallet.
  intros (walletName & w1 & H1 & H2)%bind_Ok.
  apply bind_Ok in H2 as ([] & w2 & H2 & H3).
  apply bind_Ok in H3 as (description & w3 & H3 & H4).
  apply scanLine_result in H3 as (Ec3 & Ed3 & _).
  rewrite run_putWallet in H4. injection H4 as <-. cbn [config disk CurrentWallet withWallets].
  rewrite Ec3, Ed3.
  destruct (decide (walletDirName = currentWalletDirName)) as [->|Hne].
  - unfold scanWalletName_for in H1.
    destruct (scanWalletName currentWalletDirName (stdin w)) as [[n rest]|] eqn:Hscan;
      [|done].
    injection H1 as <- <-. apply scanWalletName_nonempty in Hscan; [|done].
    rewrite bool_decide_eq_true_2 in H2 by done. cbn [andb] in H2.
    rewrite run_setCurrentWallet in H2. injection H2 as <-. by simpl.
  - injection H1 as <- <-. rewrite bool_decide_eq_false_2 in H2 by done.
    cbn [andb] in H2. injection H2 as <-. done.
Qed.

Lemma part001_Init_for_current (wallets : list string) (w w' : World) :
  Part001.Init_for wallets w = (Ok (), w') →
  disk w' = disk w ∧
  (currentWalletDirName ∈ wallets ∨ CurrentWallet (config w) ≠ "" →
   CurrentWallet (config w') ≠ "") ∧
  (currentWalletDirName ∉ wallets →
   CurrentWallet (config w') = CurrentWallet (config w)).
Proof.
  revert w. induction wallets as [|walletDirName wallets IH]; intros w; simpl.
  - intros [= <-]. split; [done|]. split; [|done]. intros [H|H]; [|done].
    by apply elem_of_nil in H.
  - intros ([] & w1 & H1 & H2)%bind_Ok.
    apply part001_addWallet_current in H1 as (Ed1 & Hd1 & Hn1).
    apply IH in H2 as (Ed2 & Hc2 & Hk2).
    split; [congruence|]. split.
    + intros [Hin|Hcur]; apply Hc2.
      * apply elem_of_cons in Hin as [<-|Hin]; [right; by apply Hd1|by left].
      * destruct (decide (walletDirName = currentWalletDirName)) as [E|E].
        { right. by apply Hd1. }
        { right. by rewrite Hn1. }
    + intros Hnot. apply not_elem_of_cons in Hnot as [Hne Hnot].
      rewrite Hk2 by done. apply Hn1. congruence.
Qed.

(** X3: When [Init] returns nil, no wallet is current exactly when the map is
    empty: as soon as one wallet was found, one is current. *)
Theorem part001_Init_current_unless_empty (order : MapOrder) (w w' : World) :
  Part001.Init order w = (Ok (), w') →
  (CurrentWallet (config w') = "" ↔ Wallets (config w') = ∅).
Proof.
  intros Hinit. pose proof (part001_Init_invariant _ _ _ Hinit) as (Hcur & _ & _).
  split.
  - intros Hempty. unfold Part001.Init in Hinit.
    apply bind_Ok in Hinit as (walletsDir & w1 & H1 & H2).
    apply bind_Ok in H2 as (wallets & w2 & H2 & H3).
    apply bind_Ok in H3 as ([] & w3 & H3 & H4).
    apply bind_Ok in H4 as ([] & w4 & H4 & H5).
    apply bind_Ok in H5 as ([] & w5 & H5 & H6).
    apply bind_Ok in H6 as (current & w6 & H6 & H7). injection H6 as <- <-.
    destruct (decide (CurrentWallet (config w5) = "")) as [E|E].
    + unfold Part001.switchToFirstWallet in H7. rewrite run_bind, run_gets in H7.
      destruct (first_key order (Wallets (config w5))) as [k|] eqn:Hfirst.
      * apply part001_Switch_Ok in H7 as (Ec & _ & Hk).
        rewrite Ec in Hempty. simpl in Hempty. congruence.
      * injection H7 as <-. by apply (first_key_None order).
    + injection H7 as <-. done.
  - intros Hmap. destruct Hcur as [?|Hkey]; [done|].
    rewrite Hmap, lookup_empty in Hkey. by destruct Hkey.
Qed.

(** X4: With a wallet directory at [data], [Init] moves nothing: when it
    returns nil the directory is as before and the wallet found at [data] is
    current under the name it was given. *)
Theorem part001_Init_keeps_directory (order : MapOrder) (w w' : World) :
  holdsWallet (disk w) currentWalletDirName = true →
  Part001.Init order w = (Ok (), w') →
  disk w' = disk w ∧ CurrentWallet (config w') ≠ "".
Proof.
  intros Hslot Hinit. unfold Part001.Init in Hinit.
  rewrite run_bind, run_gets, run_bind, run_getWallets in Hinit.
  apply bind_Ok in Hinit as ([] & w3 & H3 & H4).
  apply bind_Ok in H4 as ([] & w4 & H4 & H5).
  apply bind_Ok in H5 as ([] & w5 & H5 & H6).
  apply bind_Ok in H6 as (current & w6 & H6 & H7). injection H6 as <- <-.
  injection H3 as <-. injection H4 as <-.
  apply part001_Init_for_current in H5 as (Ed5 & Hc5 & _). cbn [disk] in Ed5.
  assert (CurrentWallet (config w5) ≠ "") as Hcur.
  { apply Hc5. left. apply list_elem_of_filter. split; [done|].
    rewrite merge_sort_Permutation. apply list_elem_of_filter. split; [done|].
    apply holdsWallet_true in Hslot as (_ & ch & Hd & _).
    apply list_elem_of_fmap. exists (currentWalletDirName, Dir ch). split; [done|].
    by apply elem_of_map_to_list. }
  rewrite decide_False in H7 by done. injection H7 as <-. done.
Qed.



(** ** Where the two revisions agree *)

Lemma Switch_agree_on_keys (walletName : string) (w : World) :
  is_Some (Wallets (config w) !! walletName) →
  MainGo.Switch walletName w = Part001.Switch walletName w.
Proof.
  intros [v Hv]. unfold MainGo.Switch, Part001.Switch.
  rewrite !run_bind, !run_gets.
  destruct (decide (CurrentWallet (config w) = walletName)); [done|].
  rewrite (run_bind (gets Wallets)), run_gets.
  by rewrite (decide_False (P := Wallets (config w) !! walletName = None)) by congruence.
Qed.

(** X21: [Switch] of [src/main.go] and [Switch] of [part_001] return the same
    result and world exactly for the names that are the current wallet or a
    key of the map; on every other name [part_001] returns [NotFound] and
    [src/main.go] does not. *)
Theorem Switch_revisions_agree (walletName : string) (w : World) :
  MainGo.Switch walletName w = Part001.Switch walletName w
  ↔ walletName = CurrentWallet (config w) ∨
    is_Some (Wallets (config w) !! walletName).
Proof.
  split.
  - intros Heq.
    destruct (decide (walletName = CurrentWallet (config w))) as [|Hne]; [by left|].
    destruct (Wallets (config w) !! walletName) as [v|] eqn:Hkey; [right; by eexists|].
    rewrite part001_Switch_NotFound in Heq by done.
    destruct (maingo_Switch_never_NotFound walletName walletName w). by rewrite Heq.
  - intros [->|Hkey].
    + by rewrite maingo_Switch_AlreadyActive, part001_Switch_AlreadyActive.
    + by apply Switch_agree_on_keys.
Qed.


Lemma switchToFirstWallet_revisions_agree (order : MapOrder) (w : World) :
  MainGo.switchToFirstWallet order w = Part001.switchToFirstWallet order w.
Proof.
  unfold MainGo.switchToFirstWallet, Part001.switchToFirstWallet.
  rewrite !run_bind, !run_gets.
  destruct (first_key order (Wallets (config w))) as [k|] eqn:Hfirst; [|done].
  apply Switch_agree_on_keys. by apply (first_key_Some order).
Qed.

Lemma Init_for_revisions_agree (wallets : list string) (w : World) :
  MainGo.Init_for wallets w = Part001.Init_for wallets w.
Proof.
  revert w. induction wallets as [|walletDirName wallets IH]; intros w; [done|].
  cbn [MainGo.Init_for Part001.Init_for].
  change (MainGo.addWallet walletDirName true true)
    with (Part001.addWallet walletDirName true).
  rewrite !run_bind.
  by destruct (Part001.addWallet walletDirName true w) as [[[]|e|] w1].
Qed.

(** X22: [Init] is the same function of configuration, directory, input and
    map order in both revisions. *)
Theorem Init_revisions_agree (order : MapOrder) (w : World) :
  MainGo.Init order w = Part001.Init order w.
Proof.
  unfold MainGo.Init, Part001.Init.
  rewrite !run_bind, !run_gets, !run_bind, !run_getWallets.
  rewrite !(run_bind (setWallets ∅)).
  destruct (setWallets ∅ w) as [[[]|e|] w3]; [|done|done].
  rewrite !(run_bind (setCurrentWallet "")).
  destruct (setCurrentWallet "" w3) as [[[]|e|] w4]; [|done|done].
  rewrite !run_bind, Init_for_revisions_agree.
  destruct (Part001.Init_for _ w4) as [[[]|e|] w5]; [|done|done].
  rewrite !run_bind, !run_gets.
  destruct (decide (CurrentWallet (config w5) = "")); [|done].
  apply switchToFirstWallet_revisions_agree.
Qed.

(** X23: [Add] of a directory with a name other than [data] is the same in
    both revisions. *)
Theorem Add_revisions_agree (walletDirName : string) (w : World) :
  walletDirName ≠ currentWalletDirName →
  MainGo.Add walletDirName w = Part001.Add walletDirName w.
Proof.
  intros Hne. unfold MainGo.Add, Part001.Add.
  rewrite !run_bind, !run_os_Stat.
  destruct (Stat (disk w) walletDirName) as [n|] eqn:Hstat.
  - rewrite !(run_bind (match n with File => _ | Dir _ => _ end)).
    destruct (match n with
              | File => fail (NotADirectory walletDirName)
              | Dir _ => _
              end w) as [[[]|e|] w1]; [|done|done].
    change (MainGo.addWallet walletDirName _ false)
      with (Part001.addWallet walletDirName false).
    rewrite !run_bind, part001_addWallet_named by done.
    destruct (stdin w1) as [|description rest]; [done|].
    apply Switch_agree_on_keys. simpl. by rewrite lookup_insert_eq.
  - rewrite !(run_bind (mret ())), run_ret.
    change (MainGo.addWallet walletDirName _ false)
      with (Part001.addWallet walletDirName false).
    rewrite !run_bind, part001_addWallet_named by done.
    destruct (stdin w) as [|description rest]; [done|].
    apply Switch_agree_on_keys. simpl. by rewrite lookup_insert_eq.
Qed.

Lemma Add_revisions_agree_witness :
  MainGo.Add "b" (twoWallets ["text"]) = Part001.Add "b" (twoWallets ["text"]).
Proof. apply Add_revisions_agree. discriminate. Defined.

(** X24: [Edit] and [Forget] are the same in both revisions for every name but
    the key of a wallet with the empty description (which [src/main.go] takes
    for missing). *)
Theorem Edit_Forget_revisions_agree (order : MapOrder) (walletName : string) (w : World) :
  Wallets (config w) !! walletName ≠ Some "" →
  MainGo.Edit walletName w = Part001.Edit walletName w ∧
  MainGo.Forget order walletName w = Part001.Forget order walletName w.
Proof.
  intros Hdesc.
  assert (index (Wallets (config w)) walletName = ""
          ↔ Wallets (config w) !! walletName = None) as Hiff.
  { unfold index. destruct (Wallets (config w) !! walletName) as [v|] eqn:E; [|done].
    simpl. split; [congruence|done]. }
  split.
  - unfold MainGo.Edit, Part001.Edit. rewrite !run_bind, !run_gets.
    destruct (decide (index (Wallets (config w)) walletName = "")) as [H1|H1],
             (decide (Wallets (config w) !! walletName = None)) as [H2|H2];
      [done|by apply Hiff in H1|by apply Hiff in H2|done].
  - unfold MainGo.Forget, Part001.Forget. rewrite !run_bind, !run_gets.
    destruct (decide (index (Wallets (config w)) walletName = "")) as [H1|H1],
             (decide (Wallets (config w) !! walletName = None)) as [H2|H2];
      [done|by apply Hiff in H1|by apply Hiff in H2|].
    rewrite !run_bind, !run_gets.
    destruct (decide (CurrentWallet (config w) = walletName)); [|done].
    rewrite !run_bind.
    destruct (os_Rename currentWalletDirName walletName w) as [[err|e0|] w1]; [|done|done].
    assert ((deleteWallet walletName;; setCurrentWallet "";;
             MainGo.switchToFirstWallet order) w1
            = (deleteWallet walletName;; setCurrentWallet "";;
               Part001.switchToFirstWallet order) w1) as Hrest.
    { rewrite !run_bind, !run_deleteWallet, !run_bind, !run_setCurrentWallet.
      apply switchToFirstWallet_revisions_agree. }
    destruct err as [e1|]; [|done]. by destruct (decide (e1 ≠ ENOENT)).
Qed.

Lemma Edit_Forget_revisions_agree_witness :
  MainGo.Edit "a" (twoWallets ["c"; "third"]) = Part001.Edit "a" (twoWallets ["c"; "third"]) ∧
  MainGo.Forget listOrder "a" (twoWallets ["c"; "third"])
  = Part001.Forget listOrder "a" (twoWallets ["c"; "third"]).
Proof. apply Edit_Forget_revisions_agree. by vm_compute. Defined.

(** ** [Forget] and [Remove], on any configuration *)

(** Whenever [Forget] returns nil the map has lost the key and nothing
    else. *)
Lemma part001_Forget_Ok (order : MapOrder) (walletName : string) (w w' : World) :
  Part001.Forget order walletName w = (Ok (), w') →
  is_Some (Wallets (config w) !! walletName) ∧
  Wallets (config w') = delete walletName (Wallets (config w)).
Proof.
  unfold Part001.Forget. rewrite run_bind, run_gets.
  destruct (decide (Wallets (config w) !! walletName = None)) as [|Hkey]; [done|].
  rewrite run_bind, run_gets. intros H. split; [by apply not_eq_None_Some|]. revert H.
  destruct (decide (CurrentWallet (config w) = walletName)).
  - intros (err & w1 & Hr & Hm)%bind_Ok. apply os_Rename_config in Hr.
    assert ((deleteWallet walletName;; setCurrentWallet "";;
             Part001.switchToFirstWallet order) w1 = (Ok (), w')) as Hrest.
    { destruct err as [e1|]; [|done]. by destruct (decide (e1 ≠ ENOENT)). }
    apply bind_Ok in Hrest as ([] & w2 & H2 & H3).
    apply bind_Ok in H3 as ([] & w3 & H3 & H4).
    rewrite run_deleteWallet in H2. injection H2 as <-.
    rewrite run_setCurrentWallet in H3. injection H3 as <-.
    unfold Part001.switchToFirstWallet in H4. rewrite run_bind, run_gets in H4.
    cbn [config Wallets withCurrentWallet withWallets] in H4.
    destruct (first_key order _) as [k|].
    + apply part001_Switch_Ok in H4 as (-> & _ & _). simpl. by rewrite Hr.
    + injection H4 as <-. simpl. by rewrite Hr.
  - rewrite run_deleteWallet. by intros [= <-].
Qed.

(** X19: Whenever [Remove] returns nil, on any configuration and directory,
    the wallet is no key of the map any more and nothing is left on disk under
    its name. *)
Theorem part001_Remove_removes (order : MapOrder) (walletName : string) (w w' : World) :
  Part001.Remove order walletName w = (Ok (), w') →
  Wallets (config w') = delete walletName (Wallets (config w)) ∧
  Wallets (config w') !! walletName = None ∧
  disk w' !! walletName = None.
Proof.
  unfold Part001.Remove. rewrite run_bind, run_gets.
  destruct (decide (Wallets (config w) !! walletName = None)); [done|].
  intros (confirmation & w1 & H1 & H2)%bind_Ok.
  apply scanLine_result in H1 as (Ec1 & _ & _).
  destruct (decide (confirmation = "yes")); [|done].
  apply bind_Ok in H2 as ([] & w2 & H2 & H3).
  apply part001_Forget_Ok in H2 as (_ & Hmap).
  apply bind_Ok in H3 as (err & w3 & H3 & H4).
  unfold os_RemoveAll, RemoveAll in H3. injection H3 as <- <-.
  injection H4 as <-. simpl.
  rewrite Hmap, Ec1, !lookup_delete_eq. done.
Qed.

Lemma part001_Remove_removes_witness :
  let w' := mkWorld (mkConfig "cfg" "/w" "b" {[ "b" := "second" ]}) {[ "data" := walletDir ]} [] in
  Wallets (config w') = delete "a" (Wallets (config (twoWallets ["yes"]))) ∧
  Wallets (config w') !! "a" = None ∧
  disk w' !! "a" = None.
Proof.
  apply (part001_Remove_removes listOrder "a" (twoWallets ["yes"])). by vm_compute.
Defined.

(** ** The command line *)




(** ** The invariant and [Add] in [part_001], as theorems of their own *)

(** X20: In [part_001] every configuration that [main] writes back satisfies
    the invariant of the data model: the current wallet is none or a key of
    the map, it is never [data], and [data] is never a key. *)
Theorem part001_saved_configuration_invariant (c : Config) :
  Part001.reachable c → invariant c.
Proof.
  induction 1 as [order c d input w' Hinit|order op c d input w' Hreach IH Hrun].
  - by eapply part001_Init_invariant.
  - destruct op; simpl in Hrun.
    + by eapply part001_Init_invariant.
    + eapply part001_Switch_invariant; [|exact Hrun]; exact IH.
    + eapply part001_Edit_invariant; [|exact Hrun]; exact IH.
    + eapply part001_Add_invariant; [|exact Hrun]; exact IH.
    + eapply part001_Forget_invariant; [|exact Hrun]; exact IH.
    + eapply part001_Remove_invariant; [|exact Hrun]; exact IH.
Qed.

Lemma part001_saved_configuration_invariant_witness :
  invariant (config (oneWallet [])).
Proof.
  apply part001_saved_configuration_invariant.
  apply (Part001.reachable_Init listOrder (mkConfig "cfg" "/w" "" ∅)
           {[ "data" := walletDir ]} ["main"; "first"] (oneWallet [])).
  by vm_compute.
Defined.



(** ** Instances of the theorems above *)

(** A fitting configuration and directory, from checks that can be
    computed. *)
Lemma layout_from_checks (c : Config) (d : Disk) :
  invariant c →
  Wallets c !! "" = None →
  map_Forall (λ name _, name ≠ CurrentWallet c → holdsWallet d name = true) (Wallets c) →
  (CurrentWallet c ≠ "" →
     holdsWallet d currentWalletDirName = true ∧ d !! CurrentWallet c = None) →
  (CurrentWallet c = "" → d !! currentWalletDirName = None) →
  layout c d.
Proof.
  intros Hinv He Hall Hslot Hnone. split; [done|]. split; [done|]. split; [|done].
  intros name [v Hv] Hne. by apply (Hall name v).
Qed.

Ltac solve_layout :=
  apply layout_from_checks; [unfold invariant|..];
  apply (bool_decide_unpack _); by vm_compute.

Lemma twoWallets_layout (input : list string) :
  layout (config (twoWallets input)) (disk (twoWallets input)).
Proof. solve_layout. Qed.

Lemma part001_Switch_keeps_layout_witness :
  ∃ w', Part001.Switch "b" (twoWallets ["x"]) = (Ok (), w') ∧
        layout (config w') (disk w') ∧
        CurrentWallet (config w') = "b" ∧
        Wallets (config w') = Wallets (config (twoWallets ["x"])) ∧
        stdin w' = stdin (twoWallets ["x"]).
Proof.
  apply part001_Switch_keeps_layout;
    [apply twoWallets_layout | vm_compute; eauto | discriminate].
Defined.

Lemma Switch_touches_three_names_witness :
  let w := mkWorld (config (twoWallets [])) (<["notes" := File]> (disk (twoWallets []))) ["x"] in
  let w' := (Part001.Switch "b" w).2 in
  stdin w' = stdin w ∧ disk w' !! "notes" = disk w !! "notes".
Proof.
  intros w w'.
  apply (Switch_touches_three_names "b" w w' (Part001.Switch "b" w).1 "notes");
    [left; by vm_compute | discriminate..].
Defined.

Lemma part001_Edit_keeps_layout_witness :
  ∃ c' d',
    Part001.Edit "b" (mkWorld (config (twoWallets [])) (disk (twoWallets [])) ["c"; ""])
    = (Ok (), mkWorld c' d' []) ∧
    layout c' d' ∧
    Wallets c' = delete "b"
                   (<["c" := if decide ("" = "")
                             then index (Wallets (config (twoWallets []))) "b" else ""]>
                      (Wallets (config (twoWallets [])))) ∧
    ("b" ≠ CurrentWallet (config (twoWallets [])) → holdsWallet d' "c" = true).
Proof.
  apply part001_Edit_keeps_layout;
    [apply twoWallets_layout | vm_compute; eauto | discriminate | discriminate
    | reflexivity | reflexivity].
Defined.

Lemma part001_Edit_onto_current_wallet_witness :
  ∃ c' d',
    Part001.Edit "b" (mkWorld (config (twoWallets [])) (disk (twoWallets []))
                        [CurrentWallet (config (twoWallets [])); "text"])
    = (Ok (), mkWorld c' d' []) ∧
    CurrentWallet c' = CurrentWallet (config (twoWallets [])) ∧
    Wallets c' !! "b" = None ∧
    holdsWallet d' (CurrentWallet (config (twoWallets []))) = true ∧
    ∀ other input,
      other ≠ CurrentWallet (config (twoWallets [])) → is_Some (Wallets c' !! other) →
      Part001.Switch other (mkWorld c' d' input)
      = (Err (IOError EEXIST), mkWorld c' d' input).
Proof.
  apply part001_Edit_onto_current_wallet;
    [apply twoWallets_layout | vm_compute; eauto | discriminate | discriminate].
Defined.

Lemma part001_Forget_keeps_layout_witness :
  ∃ w', Part001.Forget listOrder "a" (twoWallets ["x"]) = (Ok (), w') ∧
        stdin w' = stdin (twoWallets ["x"]) ∧
        layout (config w') (disk w') ∧
        Wallets (config w') = delete "a" (Wallets (config (twoWallets ["x"]))) ∧
        holdsWallet (disk w') "a" = true ∧
        ("a" ≠ CurrentWallet (config (twoWallets ["x"])) →
         CurrentWallet (config w') = CurrentWallet (config (twoWallets ["x"])) ∧
         disk w' = disk (twoWallets ["x"])).
Proof.
  apply part001_Forget_keeps_layout; [apply twoWallets_layout | vm_compute; eauto].
Defined.

Lemma part001_Remove_keeps_layout_witness :
  ∃ c' d',
    Part001.Remove listOrder "a"
      (mkWorld (config (twoWallets [])) (disk (twoWallets [])) ["yes"])
    = (Ok (), mkWorld c' d' []) ∧
    layout c' d' ∧
    Wallets c' = delete "a" (Wallets (config (twoWallets []))) ∧
    d' !! "a" = None.
Proof.
  apply part001_Remove_keeps_layout; [apply twoWallets_layout | vm_compute; eauto].
Defined.

Lemma part001_Add_keeps_layout_witness :
  let c := config (twoWallets []) in
  let d := <["c" := walletDir]> (disk (twoWallets [])) in
  let c' := withCurrentWallet (withWallets c (<["c" := "third"]> (Wallets c))) "c" in
  ∃ d', Part001.Add "c" (mkWorld c d ["third"]) = (Ok (), mkWorld c' d' []) ∧
        layout c' d'.
Proof.
  apply part001_Add_keeps_layout; [solve_layout | by vm_compute | discriminate].
Defined.

Lemma part001_Init_current_unless_empty_witness :
  CurrentWallet (config (oneWallet [])) = "" ↔ Wallets (config (oneWallet [])) = ∅.
Proof.
  apply (part001_Init_current_unless_empty listOrder
           (mkWorld (mkConfig "cfg" "/w" "" ∅) {[ "data" := walletDir ]} ["main"; "first"])).
  by vm_compute.
Defined.

Lemma part001_Init_keeps_directory_witness :
  let w := mkWorld (mkConfig "cfg" "/w" "" ∅) {[ "data" := walletDir ]} ["main"; "first"] in
  disk (oneWallet []) = disk w ∧ CurrentWallet (config (oneWallet [])) ≠ "".
Proof.
  intros w. apply (part001_Init_keeps_directory listOrder w (oneWallet []));
    by vm_compute.
Defined.

